(** * SanSure AI backend: response parsing, prompt rendering, credential gate

    A shallow embedding of [backend/groq_service.py], [backend/models.py]
    and [backend/main.py], and the properties of it that the specification
    states.

    Conventions of the embedding.
    - A Python [str] is the list of its Unicode code points ([pystr]).
      String constants of the source are written as UTF-8 literals and
      decoded by [u]; a double-quoted word of a template is written
      [q "word"].
    - Python ints are [Z].  Python floats only occur as request fields
      that are printed or ignored: their type and their [repr] are
      parameters, and so is the table behind [str.isprintable].
    - [json.loads], [re.sub] with the fence pattern and [str.strip] are
      modelled as functions on [pystr]; a decoded number with a fraction
      or an exponent is kept as its exact decimal value.
    - Python's [None] returned by [safe_json_parse] and the JSON value
      [null] decoded by [json.loads] are the same Python object; both are
      [JNull].
    - Effects (reading the environment, logging, the one outbound chat
      completion call) are in the monad [M]: a computation reads the
      [Environment] and yields the trace of its events and either a value
      or a raised exception.
    - Request records are the validated pydantic models; validation
      itself belongs to the web framework and is not modelled.
    - Interpreter resource limits (recursion depth of the JSON scanner,
      the digit limit of int/str conversion) are not modelled.

    Contents: the embedding; properties of the embedding (strings, the
    decoder, the effect monad); the claims, by topic: response parsing
    (C1, C2, C3), the credential gate (C4, C5), the collusion prompt
    (C6, C8, C10), the health narrative (C7, C9); further properties
    (X1 to X17): the operations and their endpoints by the answer of
    the provider, the text handed to the decoder, what the prompts show
    of a request. *)

From Stdlib Require Import List NArith ZArith Bool Ascii String Lia QArith.
From Stdlib Require Import DecimalString FunInd.
Import ListNotations.

Local Open Scope N_scope.
Local Open Scope list_scope.

(* ------------------------------------------------------------------ *)
(** ** Python strings *)

Definition codepoint := N.
Definition pystr := list codepoint.

Fixpoint bytes_of_string (s : string) : list N :=
  match s with
  | EmptyString => []
  | String a r => N_of_ascii a :: bytes_of_string r
  end.

(** UTF-8 decoding of a (well-formed) source literal. *)
Fixpoint utf8_decode (bs : list N) : pystr :=
  match bs with
  | [] => []
  | b0 :: r0 =>
      if b0 <? 128 then b0 :: utf8_decode r0
      else if b0 <? 224 then
        match r0 with
        | b1 :: r1 => (b0 mod 32 * 64 + b1 mod 64) :: utf8_decode r1
        | _ => [b0]
        end
      else if b0 <? 240 then
        match r0 with
        | b1 :: b2 :: r2 =>
            ((b0 mod 16 * 64 + b1 mod 64) * 64 + b2 mod 64) :: utf8_decode r2
        | _ => [b0]
        end
      else
        match r0 with
        | b1 :: b2 :: b3 :: r3 =>
            (((b0 mod 8 * 64 + b1 mod 64) * 64 + b2 mod 64) * 64 + b3 mod 64)
              :: utf8_decode r3
        | _ => [b0]
        end
  end.

Definition u (s : string) : pystr := utf8_decode (bytes_of_string s).

Definition dquote : codepoint := 34.
Definition q (s : string) : pystr := dquote :: u s ++ [dquote].
Definition qq : pystr := [dquote; dquote].

Definition pystr_eqb (a b : pystr) : bool :=
  if list_eq_dec N.eq_dec a b then true else false.

(** [s.startswith(p)] *)
Fixpoint startswith (p s : pystr) : bool :=
  match p, s with
  | [], _ => true
  | _ :: _, [] => false
  | a :: p', b :: s' => (a =? b) && startswith p' s'
  end.

(** [str.isspace] on one character: the Unicode characters of
    bidirectional class WS, B or S, or of category Zs. *)
Definition py_isspace (c : codepoint) : bool :=
  ((9 <=? c) && (c <=? 13)) || ((28 <=? c) && (c <=? 32))
  || (c =? 133) || (c =? 160) || (c =? 5760)
  || ((8192 <=? c) && (c <=? 8202))
  || (c =? 8232) || (c =? 8233) || (c =? 8239) || (c =? 8287)
  || (c =? 12288).

Fixpoint lstrip (s : pystr) : pystr :=
  match s with
  | [] => []
  | c :: r => if py_isspace c then lstrip r else s
  end.

Definition rstrip (s : pystr) : pystr := rev (lstrip (rev s)).

(** [s.strip()] *)
Definition strip (s : pystr) : pystr := rstrip (lstrip s).

(** [s[:n]] *)
Definition slice_to (n : nat) (s : pystr) : pystr := firstn n s.

(** [str(i)] for a Python int. *)
Definition int_str (z : Z) : pystr :=
  u (NilZero.string_of_int (Z.to_int z)).

(** [str(b)] for a Python bool. *)
Definition bool_str (b : bool) : pystr :=
  if b then u "True" else u "False".

(* ------------------------------------------------------------------ *)
(** ** [re.sub(r"```json\n?|```", "", text)] *)

Definition BACKTICK : codepoint := 96.
Definition FENCE : pystr := u "```".
Definition FENCE_JSON : pystr := u "```json".

(** Length of the match of the pattern at the head of [s], [0] when the
    pattern does not match there.  The first alternative is tried first
    and its optional newline is greedy. *)
Definition fence_match (s : pystr) : nat :=
  if startswith FENCE_JSON s then
    match skipn 7 s with
    | c :: _ => if c =? 10 then 8 else 7
    | [] => 7
    end
  else if startswith FENCE s then 3
  else 0%nat.

(** Left-to-right scan replacing every match by the empty string;
    [skip] counts the characters of the current match still to drop. *)
Fixpoint sub_fences_from (skip : nat) (s : pystr) : pystr :=
  match s with
  | [] => []
  | c :: r =>
      match skip with
      | S k => sub_fences_from k r
      | O =>
          match fence_match s with
          | O => c :: sub_fences_from 0 r
          | S k => sub_fences_from k r
          end
      end
  end.

Definition sub_fences (s : pystr) : pystr := sub_fences_from 0 s.

(* ------------------------------------------------------------------ *)
(** ** Decoded JSON values *)

Inductive float_const := FNaN | FInfinity | FNegInfinity.

#[warnings="-register-all"]
Inductive json :=
| JNull
| JBool (b : bool)
| JInt (z : Z)
    (** a number literal without fraction and exponent: a Python int *)
| JFloat (neg : bool) (mant : N) (exp10 : Z)
    (** any other number literal, kept exactly: (-1)^neg * mant * 10^exp10,
        which Python rounds to the nearest binary64 *)
| JConst (c : float_const)
| JStr (s : pystr)
| JArr (items : list json)
| JObj (pairs : list (pystr * json)).

(** [d[k] = v] on an insertion-ordered dict. *)
Fixpoint dict_set (k : pystr) (v : json) (d : list (pystr * json))
  : list (pystr * json) :=
  match d with
  | [] => [(k, v)]
  | (k', v') :: d' =>
      if pystr_eqb k k' then (k, v) :: d' else (k', v') :: dict_set k v d'
  end.

(** [dict(pairs)] *)
Definition dict_of_pairs (ps : list (pystr * json)) : list (pystr * json) :=
  fold_left (fun d kv => dict_set (fst kv) (snd kv) d) ps [].

(** Whether the binary64 nearest to [mant * 10^exp10] is non-zero: the
    literal rounds to zero exactly when it is at most 2^-1075, half the
    smallest subnormal. *)
Definition float_nonzero (mant : N) (exp10 : Z) : bool :=
  negb (mant =? 0)
  && ((0 <=? exp10)%Z
      || (10 ^ (- exp10) <? Z.of_N mant * 2 ^ 1075)%Z).

(** Python truth value, [bool(v)]. *)
Definition truthy (v : json) : bool :=
  match v with
  | JNull => false
  | JBool b => b
  | JInt z => negb (z =? 0)%Z
  | JFloat _ m e => float_nonzero m e
  | JConst _ => true
  | JStr s => match s with [] => false | _ => true end
  | JArr l => match l with [] => false | _ => true end
  | JObj d => match d with [] => false | _ => true end
  end.

(* ------------------------------------------------------------------ *)
(** ** [json.loads]

    The scanner of the [json] module, by recursive descent.  [None] is
    the [JSONDecodeError].  [consts] tells whether the constants [NaN],
    [Infinity] and [-Infinity] are accepted: Python accepts them, the
    JSON grammar does not. *)

(** The decoder's whitespace: space, tab, line feed, carriage return. *)
Definition json_ws (c : codepoint) : bool :=
  (c =? 32) || (c =? 9) || (c =? 10) || (c =? 13).

Fixpoint skip_ws (s : pystr) : pystr :=
  match s with
  | [] => []
  | c :: r => if json_ws c then skip_ws r else s
  end.

Definition is_digit (c : codepoint) : bool := (48 <=? c) && (c <=? 57).

(** The longest run of decimal digits at the head of [s], and the rest. *)
Fixpoint span_digits (s : pystr) : pystr * pystr :=
  match s with
  | [] => ([], [])
  | c :: r =>
      if is_digit c then
        let '(ds, rest) := span_digits r in (c :: ds, rest)
      else ([], s)
  end.

(** Value of a run of decimal digits, most significant first. *)
Definition digits_value (ds : pystr) : N :=
  fold_left (fun acc d => acc * 10 + (d - 48)) ds 0.

Definition hexval (c : codepoint) : option N :=
  if (48 <=? c) && (c <=? 57) then Some (c - 48)
  else if (65 <=? c) && (c <=? 70) then Some (c - 55)
  else if (97 <=? c) && (c <=? 102) then Some (c - 87)
  else None.

(** The four hex digits of a [\uXXXX] escape. *)
Definition decode_uXXXX (a b c d : codepoint) : option N :=
  match hexval a, hexval b, hexval c, hexval d with
  | Some x, Some y, Some z, Some w => Some (((x * 16 + y) * 16 + z) * 16 + w)
  | _, _, _, _ => None
  end.

(** The one-character escapes. *)
Definition BACKSLASH (e : codepoint) : option codepoint :=
  if e =? 34 then Some 34          (* quote *)
  else if e =? 92 then Some 92     (* backslash *)
  else if e =? 47 then Some 47     (* slash *)
  else if e =? 98 then Some 8      (* b *)
  else if e =? 102 then Some 12    (* f *)
  else if e =? 110 then Some 10    (* n *)
  else if e =? 114 then Some 13    (* r *)
  else if e =? 116 then Some 9     (* t *)
  else None.

Definition is_high_surrogate (c : N) : bool := (55296 <=? c) && (c <=? 56319).
Definition is_low_surrogate (c : N) : bool := (56320 <=? c) && (c <=? 57343).

(** After a [\uXXXX] escape that decodes to [uni], with [r2] the text
    after it: when [uni] is a high surrogate and [r2] starts with another
    [\u] escape, that escape is decoded; a low surrogate is combined
    with [uni], anything else is left for the next round, and a
    malformed escape is an error. *)
Inductive surrogate_lookahead :=
| Combine (uni2 : N)
| Skip
| Malformed.

Definition lookahead (uni : N) (r2 : pystr) : surrogate_lookahead :=
  if is_high_surrogate uni then
    match r2 with
    | b :: e2 :: r3 =>
        if (b =? 92) && (e2 =? 117) then
          match r3 with
          | l1 :: l2 :: l3 :: l4 :: _ =>
              match decode_uXXXX l1 l2 l3 l4 with
              | None => Malformed
              | Some uni2 =>
                  if is_low_surrogate uni2 then Combine uni2 else Skip
              end
          | _ => Malformed
          end
        else Skip
    | _ => Skip
    end
  else Skip.

(** [scanstring] in strict mode, from just after the opening quote;
    [acc] holds the decoded characters so far, last first. *)
Fixpoint scanstring (acc : pystr) (s : pystr) : option (pystr * pystr) :=
  match s with
  | [] => None
  | c :: r =>
      if c =? 34 then Some (rev acc, r)
      else if c <=? 31 then None
      else if c =? 92 then
        match r with
        | [] => None
        | e :: r1 =>
            if e =? 117 then
              match r1 with
              | h1 :: h2 :: h3 :: h4 :: r2 =>
                  match decode_uXXXX h1 h2 h3 h4 with
                  | None => None
                  | Some uni =>
                      match lookahead uni r2 with
                      | Malformed => None
                      | Skip => scanstring (uni :: acc) r2
                      | Combine uni2 =>
                          match r2 with
                          | _ :: _ :: _ :: _ :: _ :: _ :: r4 =>
                              scanstring
                                ((65536 + ((uni - 55296) * 1024
                                           + (uni2 - 56320))) :: acc)
                                r4
                          | _ => None
                          end
                      end
                  end
              | _ => None
              end
            else
              match BACKSLASH e with
              | Some c' => scanstring (c' :: acc) r1
              | None => None
              end
        end
      else scanstring (c :: acc) r
  end.

(** The number pattern of the scanner, in its three parts.  The integer
    part is a single 0 or a run of digits not starting with 0. *)
Definition int_part (s : pystr) : option (pystr * pystr) :=
  match s with
  | [] => None
  | d :: r =>
      if d =? 48 then Some ([d], r)
      else if is_digit d then Some (span_digits s)
      else None
  end.

(** The optional fraction, a dot and at least one digit; without a
    digit after the dot nothing is consumed. *)
Definition frac_part (s : pystr) : option pystr * pystr :=
  match s with
  | [] => (None, s)
  | c :: r =>
      if c =? 46 then
        match span_digits r with
        | ([], _) => (None, s)
        | (ds, rest) => (Some ds, rest)
        end
      else (None, s)
  end.

(** The digits of an exponent, after the sign; without a digit the
    exponent is given up and nothing of [s] is consumed. *)
Definition exp_digits (eneg : bool) (s r : pystr) : option Z * pystr :=
  match span_digits r with
  | ([], _) => (None, s)
  | (ds, rest) =>
      (Some (if eneg then (- Z.of_N (digits_value ds))%Z
             else Z.of_N (digits_value ds)), rest)
  end.

(** The optional exponent: e or E, an optional sign, at least one digit. *)
Definition exp_part (s : pystr) : option Z * pystr :=
  match s with
  | [] => (None, s)
  | e :: r =>
      if (e =? 101) || (e =? 69) then
        match r with
        | [] => (None, s)
        | sg :: r' =>
            if sg =? 45 then exp_digits true s r'
            else if sg =? 43 then exp_digits false s r'
            else exp_digits false s r
        end
      else (None, s)
  end.

(** The sign, if any. *)
Definition sign_part (s : pystr) : bool * pystr :=
  match s with
  | [] => (false, s)
  | c :: r => if c =? 45 then (true, r) else (false, s)
  end.

(** A number literal at the head of [s].  A literal with neither
    fraction nor exponent is an int, any other one a float. *)
Definition match_number (s : pystr) : option (json * pystr) :=
  let '(neg, s1) := sign_part s in
  match int_part s1 with
  | None => None
  | Some (ids, s2) =>
      let '(fds, s3) := frac_part s2 in
      let '(ex, s4) := exp_part s3 in
      match fds, ex with
      | None, None =>
          Some (JInt (if neg then (- Z.of_N (digits_value ids))%Z
                      else Z.of_N (digits_value ids)), s4)
      | _, _ =>
          let fd := match fds with Some ds => ds | None => [] end in
          let e := match ex with Some e => e | None => 0%Z end in
          Some (JFloat neg (digits_value (ids ++ fd))
                  (e - Z.of_nat (List.length fd))%Z, s4)
      end
  end.

Definition scan_literal (consts : bool) (s : pystr) : option (json * pystr) :=
  if startswith (u "null") s then Some (JNull, skipn 4 s)
  else if startswith (u "true") s then Some (JBool true, skipn 4 s)
  else if startswith (u "false") s then Some (JBool false, skipn 5 s)
  else
    match match_number s with
    | Some r => Some r
    | None =>
        if consts && startswith (u "NaN") s
        then Some (JConst FNaN, skipn 3 s)
        else if consts && startswith (u "Infinity") s
        then Some (JConst FInfinity, skipn 8 s)
        else if consts && startswith (u "-Infinity") s
        then Some (JConst FNegInfinity, skipn 9 s)
        else None
    end.

Section Scanner.
Variable consts : bool.

(** [scan_once] reads one value at the head of [s]; [array_items]
    reads the items of an array from an item on, [object_pairs] the
    members of an object from the opening quote of a key on.  The
    fuel bounds the number of nested calls. *)
Fixpoint scan_once (fuel : nat) (s : pystr) {struct fuel}
  : option (json * pystr) :=
  match fuel with
  | O => None
  | S f =>
      match s with
      | [] => None
      | c :: r =>
          if c =? 34 then
            match scanstring [] r with
            | Some (str, rest) => Some (JStr str, rest)
            | None => None
            end
          else if c =? 123 then
            match skip_ws r with
            | [] => None
            | c1 :: rest =>
                if c1 =? 125 then Some (JObj [], rest)
                else if c1 =? 34 then object_pairs f [] rest
                else None
            end
          else if c =? 91 then
            match skip_ws r with
            | [] => array_items f [] []
            | c1 :: rest =>
                if c1 =? 93 then Some (JArr [], rest)
                else array_items f [] (c1 :: rest)
            end
          else scan_literal consts s
      end
  end
with array_items (fuel : nat) (acc : list json) (s : pystr) {struct fuel}
  : option (json * pystr) :=
  match fuel with
  | O => None
  | S f =>
      match scan_once f s with
      | None => None
      | Some (v, rest) =>
          match skip_ws rest with
          | [] => None
          | c :: rest' =>
              if c =? 93 then Some (JArr (rev (v :: acc)), rest')
              else if c =? 44 then array_items f (v :: acc) (skip_ws rest')
              else None
          end
      end
  end
with object_pairs (fuel : nat) (acc : list (pystr * json)) (s : pystr)
       {struct fuel} : option (json * pystr) :=
  match fuel with
  | O => None
  | S f =>
      match scanstring [] s with
      | None => None
      | Some (key, rest) =>
          match skip_ws rest with
          | [] => None
          | c :: rest1 =>
              if c =? 58 then
                match scan_once f (skip_ws rest1) with
                | None => None
                | Some (v, rest2) =>
                    match skip_ws rest2 with
                    | [] => None
                    | c2 :: rest3 =>
                        if c2 =? 125 then
                          Some (JObj (dict_of_pairs (rev ((key, v) :: acc))),
                                rest3)
                        else if c2 =? 44 then
                          match skip_ws rest3 with
                          | [] => None
                          | c4 :: rest4 =>
                              if c4 =? 34
                              then object_pairs f ((key, v) :: acc) rest4
                              else None
                          end
                        else None
                    end
                end
              else None
          end
      end
  end.

(** [JSONDecoder.decode]: one value, surrounded by whitespace only. *)
Definition decode (s : pystr) : option json :=
  match scan_once (2 * List.length s + 2) (skip_ws s) with
  | Some (v, rest) =>
      match skip_ws rest with
      | [] => Some v
      | _ => None
      end
  | None => None
  end.
End Scanner.

(** [json.loads(s)] *)
Definition json_loads (s : pystr) : option json := decode true s.

(* ------------------------------------------------------------------ *)
(** ** Exceptions, events and the effect monad *)

Inductive exn :=
| ValueError (msg : pystr)
| TypeError (msg : pystr)
| IndexError (msg : pystr)
| APIError (msg : pystr)
    (** whatever the Groq client raises for a failed call *)
| HTTPException (status_code : Z) (detail : pystr).

(** [str(e)] *)
Definition exn_str (e : exn) : pystr :=
  match e with
  | ValueError m | TypeError m | IndexError m | APIError m => m
  | HTTPException _ d => d
  end.

Inductive result (A : Type) :=
| Ok (a : A)
| Raise (e : exn).
Arguments Ok {A} a.
Arguments Raise {A} e.

(** [l[i]] *)
Definition py_index {A : Type} (l : list A) (i : nat) : result A :=
  match nth_error l i with
  | Some x => Ok x
  | None => Raise (IndexError (u "list index out of range"))
  end.

(** The Groq client handle. *)
Record Groq := { api_key : pystr }.

Inductive content_part :=
| image_url (url : pystr)
| text_part (text : pystr).

Inductive content :=
| content_str (s : pystr)
| content_parts (parts : list content_part).

Record message := { role : pystr; message_content : content }.

Record chat_request :=
  { model : pystr; temperature : Q; messages : list message }.

Record Choice := { choice_content : option pystr }.
Record ChatCompletion := { choices : list Choice }.

Inductive log_level := INFO | ERROR.

Inductive event :=
| Log (logger : pystr) (level : log_level) (msg : pystr)
| NetworkCall (client : Groq) (req : chat_request).

(** What a request handler sees of the outside: the process environment
    and the answer of the provider to a chat completion call. *)
Record Environment :=
  { getenv : pystr -> option pystr;
    chat_completions : Groq -> chat_request -> result ChatCompletion }.

Definition M (A : Type) : Type := Environment -> list event * result A.

Definition ret {A} (a : A) : M A := fun _ => ([], Ok a).
Definition raise {A} (e : exn) : M A := fun _ => ([], Raise e).
Definition bind {A B} (m : M A) (k : A -> M B) : M B :=
  fun env =>
    match m env with
    | (tr, Ok a) => let '(tr', r) := k a env in (tr ++ tr', r)
    | (tr, Raise e) => (tr, Raise e)
    end.

Declare Scope py_scope.
Delimit Scope py_scope with py.
Notation "x <- m ;; k" := (bind m (fun x => k))
  (at level 61, m at next level, right associativity) : py_scope.
Notation "m ;; k" := (bind m (fun _ => k))
  (at level 61, right associativity) : py_scope.
Local Open Scope py_scope.

Definition lift {A} (r : result A) : M A := fun _ => ([], r).
Definition os_getenv (name : pystr) : M (option pystr) :=
  fun env => ([], Ok (getenv env name)).
Definition logger_info (name msg : pystr) : M unit :=
  fun _ => ([Log name INFO msg], Ok tt).
Definition logger_error (name msg : pystr) : M unit :=
  fun _ => ([Log name ERROR msg], Ok tt).
Definition create (client : Groq) (req : chat_request) : M ChatCompletion :=
  fun env => ([NetworkCall client req], chat_completions env client req).

(** [try: body except <class> as e: handler]; [handler e] is [None] when
    the clause does not catch [e]. *)
Definition try_except {A} (body : M A) (handler : exn -> option (M A)) : M A :=
  fun env =>
    match body env with
    | (tr, Ok a) => (tr, Ok a)
    | (tr, Raise e) =>
        match handler e with
        | Some h => let '(tr', r) := h env in (tr ++ tr', r)
        | None => (tr, Raise e)
        end
    end.

Definition trace_of {A} (o : list event * result A) : list event := fst o.
Definition outcome_of {A} (o : list event * result A) : result A := snd o.

Definition is_network_call (e : event) : bool :=
  match e with
  | NetworkCall _ _ => true
  | Log _ _ _ => false
  end.

Definition network_calls (tr : list event) : list event :=
  filter is_network_call tr.

(* ------------------------------------------------------------------ *)
(** ** models.py *)

Module ChecklistModel.
Record t := { door : bool; water : bool; clean : bool; toilet : bool }.
End ChecklistModel.

Module VisionRequest.
Record t := { base64_image : pystr; checklist : ChecklistModel.t }.
End VisionRequest.

Module SubmissionModel.
Record t :=
{ id : pystr;
  facilityId : pystr;
  submitterType : pystr;
  score : Z;
  checklist : ChecklistModel.t;
  features : list pystr;
  discrepancies : list pystr }.
End SubmissionModel.

Module CollusionRequest.
Record t := { submissions : list SubmissionModel.t }.
End CollusionRequest.

Module HealthNarrativeRequest.
Record t {float : Type} :=
{ village_name : pystr;
  population : Z;
  avg_score : float;
  cases_prevented : Z }.
Arguments t : clear implicits.
End HealthNarrativeRequest.

Module InvestorSignalRequest.
Record t {float : Type} :=
{ village_name : pystr;
  history : list float;
  avg : float;
  std_dev : float }.
Arguments t : clear implicits.
End InvestorSignalRequest.

(* ------------------------------------------------------------------ *)
(** ** [repr] of strings, lists and the checklist dict *)

Definition hex_digit (n : N) : codepoint :=
  if n <? 10 then 48 + n else 87 + n.

(** The [k] low hex digits of [n], most significant first. *)
Fixpoint hex_digits (k : nat) (n : N) : pystr :=
  match k with
  | O => []
  | S k' => hex_digits k' (n / 16) ++ [hex_digit (n mod 16)]
  end.

Section Repr.
(** [str.isprintable] on one character, a table of the Unicode
    database. *)
Variable isprintable : codepoint -> bool.

Definition repr_char (quote c : codepoint) : pystr :=
  if (c =? quote) || (c =? 92) then [92; c]
  else if c =? 9 then u "\t"
  else if c =? 10 then u "\n"
  else if c =? 13 then u "\r"
  else if (c <? 32) || (c =? 127) then u "\x" ++ hex_digits 2 c
  else if c <? 127 then [c]
  else if isprintable c then [c]
  else if c <? 256 then u "\x" ++ hex_digits 2 c
  else if c <? 65536 then u "\u" ++ hex_digits 4 c
  else u "\U" ++ hex_digits 8 c.

(** [repr(s)] for a str: single quotes unless [s] holds a single
    quote and no double quote. *)
Definition str_repr (s : pystr) : pystr :=
  let quote :=
    if existsb (N.eqb 39) s && negb (existsb (N.eqb 34) s) then 34 else 39 in
  quote :: flat_map (repr_char quote) s ++ [quote].
End Repr.

(** [', '.join(items)] *)
Fixpoint join_comma (items : list pystr) : pystr :=
  match items with
  | [] => []
  | [x] => x
  | x :: r => x ++ u ", " ++ join_comma r
  end.

(** [repr(l)] for a list whose items are rendered by [item_repr]. *)
Definition list_repr {A} (item_repr : A -> pystr) (l : list A) : pystr :=
  u "[" ++ join_comma (map item_repr l) ++ u "]".

(** [str(cl.model_dump())] *)
Definition model_dump_str (cl : ChecklistModel.t) : pystr :=
  u "{'door': " ++ bool_str (ChecklistModel.door cl)
  ++ u ", 'water': " ++ bool_str (ChecklistModel.water cl)
  ++ u ", 'clean': " ++ bool_str (ChecklistModel.clean cl)
  ++ u ", 'toilet': " ++ bool_str (ChecklistModel.toilet cl) ++ u "}".

(* ------------------------------------------------------------------ *)
(** ** groq_service.py *)

Definition LOGGER : pystr := u "groq_service".

Definition VISION_MODEL : pystr := u "meta-llama/llama-4-scout-17b-16e-instruct".
Definition TEXT_MODEL : pystr := u "meta-llama/llama-4-scout-17b-16e-instruct".

Definition SANSURE_SYSTEM_INSTRUCTION : pystr :=
  u "
You are SanSure's core AI engine — an intelligence layer powering a rural sanitation
trust-rating platform aligned with SDG 6.2. You operate across four distinct modes
depending on the task passed to you. Always detect which mode applies from the request
structure and respond accordingly.

MODE 1 — VISION HYGIENE SCORER
Triggered when a toilet facility image is provided alongside a 4-item checklist.
Respond ONLY in this JSON:
{" ++ q "hygiene_score" ++ u ": 0-100, " ++ q "confidence" ++ u ": " ++ q "high|medium|low" ++ u ", " ++ q "visual_verification" ++ u ":
{" ++ q "door" ++ u ": " ++ q "confirmed|contradicted|unclear" ++ u ", " ++ q "water" ++ u ": " ++ q "confirmed|contradicted|unclear" ++ u ",
" ++ q "clean" ++ u ": " ++ q "confirmed|contradicted|unclear" ++ u ", " ++ q "toilet" ++ u ": " ++ q "confirmed|contradicted|unclear" ++ u "},
" ++ q "detected_features" ++ u ": [], " ++ q "discrepancies" ++ u ": [], " ++ q "recommendation" ++ u ": " ++ qq ++ u ",
" ++ q "spoofing_risk" ++ u ": " ++ q "low|medium|high" ++ u ", " ++ q "spoofing_reasoning" ++ u ": " ++ qq ++ u "}

MODE 2 — COLLUSION ADJUDICATOR
Triggered when three independent submission summaries are provided for the same facility.
Respond ONLY in this JSON:
{" ++ q "consensus_score" ++ u ": 0-100, " ++ q "score_variance" ++ u ": 0-100, " ++ q "collusion_risk" ++ u ": " ++ q "low|medium|high" ++ u ",
" ++ q "collusion_indicators" ++ u ": [], " ++ q "independence_confirmed" ++ u ": true|false, " ++ q "reasoning" ++ u ": " ++ qq ++ u ",
" ++ q "recommendation" ++ u ": " ++ q "mint_token|hold_pending_review|reject_flag_escalate" ++ u ",
" ++ q "confidence" ++ u ": " ++ q "high|medium|low" ++ u "}

MODE 3 — HEALTH MIRROR NARRATOR
Triggered when village demographics and cases_prevented are provided.
Respond with ONE warm plain-language paragraph only — no JSON, no headers.
Tone: a respected elder at a village meeting. Never use: data, score, metric, percentage, coefficient.

MODE 4 — INVESTOR SIGNAL GENERATOR
Triggered when a 90-day score history array is provided.
Respond ONLY in this JSON:
{" ++ q "credit_price_inr" ++ u ": 80-500, " ++ q "volatility_index" ++ u ": 0-100,
" ++ q "risk_rating" ++ u ": " ++ q "AAA|AA|A|BBB|BB|B|CCC|D" ++ u ",
" ++ q "trend" ++ u ": " ++ q "strongly_improving|improving|stable|declining|strongly_declining" ++ u ",
" ++ q "investment_signal" ++ u ": " ++ q "max 15 words" ++ u ", " ++ q "disbursement_ready" ++ u ": true|false,
" ++ q "30_day_forecast" ++ u ": " ++ q "improving|stable|at_risk" ++ u "}

GLOBAL RULES: Never wrap JSON in markdown fences. Never fabricate visual features.
Collusion false negatives are more damaging than false positives — be ruthlessly honest.
CLEANLINESS RULE: Judge cleanliness based on the toilet bowl, seat, and surrounding surfaces — not the floor. Floor tile colour, grout lines, or patterns are irrelevant to the cleanliness score. Only visible waste, faeces, heavy staining on the toilet itself, or clear evidence of neglect should lower the score.
".

Definition PLACEHOLDER_API_KEY : pystr := u "PLACEHOLDER_API_KEY".
Definition CONFIG_ERROR : pystr := u "GROQ_API_KEY not set in backend/.env".

(** [not api_key or api_key == PLACEHOLDER_API_KEY] *)
Definition credential_unusable (k : option pystr) : bool :=
  match k with
  | None => true
  | Some [] => true
  | Some key => pystr_eqb key PLACEHOLDER_API_KEY
  end.

Definition get_client : M Groq :=
  api_key <- os_getenv (u "GROQ_API_KEY") ;;
  if credential_unusable api_key
  then raise (ValueError CONFIG_ERROR)
  else
    match api_key with
    | Some key => ret {| api_key := key |}
    | None => raise (ValueError CONFIG_ERROR)
    end.

(** The text handed to [json.loads]. *)
Definition cleaned (text : pystr) : pystr := strip (sub_fences text).

Definition safe_json_parse (text : option pystr) : M json :=
  match text with
  | None => ret JNull
  | Some [] => ret JNull
  | Some t =>
      match json_loads (cleaned t) with
      | Some v => ret v
      | None =>
          logger_error LOGGER (u "Failed to parse JSON: " ++ slice_to 200 t) ;;
          ret JNull
      end
  end.

(** [text[:n]] where [text] may be [None]. *)
Definition slice_opt (n : nat) (text : option pystr) : result pystr :=
  match text with
  | Some t => Ok (slice_to n t)
  | None => Raise (TypeError (u "'NoneType' object is not subscriptable"))
  end.

(** [response.choices[0].message.content] *)
Definition first_content (response : ChatCompletion) : result (option pystr) :=
  match py_index (choices response) 0 with
  | Ok c => Ok (choice_content c)
  | Raise e => Raise e
  end.

(** The tail shared by the three structured modes,
    [result = safe_json_parse(text)], [if result: return result],
    [raise ValueError(f"Could not parse ... response: {text[:300]}")]. *)
Definition parse_or_raise (could_not : pystr) (text : option pystr) : M json :=
  result <- safe_json_parse text ;;
  if truthy result then ret result
  else
    snippet <- lift (slice_opt 300 text) ;;
    raise (ValueError (could_not ++ snippet)).

Definition SYSTEM_MESSAGE : message :=
  {| role := u "system"; message_content := content_str SANSURE_SYSTEM_INSTRUCTION |}.

Definition user_message (prompt : pystr) : message :=
  {| role := u "user"; message_content := content_str prompt |}.

(** *** Mode 1: vision hygiene scorer *)

Definition vision_prompt (req : VisionRequest.t) : pystr :=
  let cl := VisionRequest.checklist req in
  u "You are SanSure's hygiene scoring engine. Analyze this toilet facility photo across four dimensions:

1. STRUCTURAL INTEGRITY (door present, walls intact, roof functional)
2. WATER AVAILABILITY (water source visible, container present)
3. CLEANLINESS (focus on the toilet bowl, seat, and immediate surfaces — is there visible waste, heavy staining, or clear evidence of neglect? Floor appearance is irrelevant to this score)
4. TOILET VISIBILITY (is the toilet unit itself clearly visible and present in the image?)

User provided checklist:
- Door present: " ++ bool_str (ChecklistModel.door cl) ++ u "
- Water available: " ++ bool_str (ChecklistModel.water cl) ++ u "
- Clean floor: " ++ bool_str (ChecklistModel.clean cl) ++ u "
- Toilet clearly visible: " ++ bool_str (ChecklistModel.toilet cl) ++ u "

Return ONLY valid JSON (no markdown fences):
{
  " ++ q "hygiene_score" ++ u ": 0-100,
  " ++ q "confidence" ++ u ": " ++ q "high|medium|low" ++ u ",
  " ++ q "visual_verification" ++ u ": {
    " ++ q "door" ++ u ": " ++ q "confirmed|contradicted|unclear" ++ u ",
    " ++ q "water" ++ u ": " ++ q "confirmed|contradicted|unclear" ++ u ",
    " ++ q "clean" ++ u ": " ++ q "confirmed|contradicted|unclear" ++ u ",
    " ++ q "toilet" ++ u ": " ++ q "confirmed|contradicted|unclear" ++ u "
  },
  " ++ q "detected_features" ++ u ": [" ++ q "feature1" ++ u "],
  " ++ q "discrepancies" ++ u ": [" ++ q "discrepancy if any" ++ u "],
  " ++ q "recommendation" ++ u ": " ++ q "brief assessment" ++ u ",
  " ++ q "spoofing_risk" ++ u ": " ++ q "low|medium|high" ++ u ",
  " ++ q "spoofing_reasoning" ++ u ": " ++ q "reasoning" ++ u "
}".

Definition run_vision_analysis (req : VisionRequest.t) : M json :=
  let prompt := vision_prompt req in
  client <- get_client ;;
  logger_info LOGGER (u "📤 [Mode 1] Vision analysis → " ++ VISION_MODEL) ;;
  response <- create client
    {| model := VISION_MODEL;
       temperature := 1 # 10;
       messages :=
         [ SYSTEM_MESSAGE;
           {| role := u "user";
              message_content :=
                content_parts
                  [ image_url (u "data:image/jpeg;base64,"
                               ++ VisionRequest.base64_image req);
                    text_part prompt ] |} ] |} ;;
  logger_info LOGGER (u "✅ [Mode 1] Response received") ;;
  text <- lift (first_content response) ;;
  parse_or_raise (u "Could not parse vision response: ") text.

(** *** Mode 2: collusion adjudicator *)

Section Collusion.
Variable isprintable : codepoint -> bool.

Definition fmt (s : SubmissionModel.t) : pystr :=
  u "Score: " ++ int_str (SubmissionModel.score s) ++ u "
Checklist: " ++ model_dump_str (SubmissionModel.checklist s) ++ u "
Features: " ++ list_repr (str_repr isprintable) (SubmissionModel.features s).

Definition NOT_AVAILABLE : pystr := u "N/A".

(** The f-string of the prompt, with its four holes. *)
Definition collusion_template (facility_id slot0 slot1 slot2 : pystr) : pystr :=
  u "You are SanSure's collusion detection engine. Three independent parties submitted assessments for facility " ++ facility_id ++ u ":

HOUSEHOLD SUBMISSION:
" ++ slot0 ++ u "

PEER SUBMISSION (non-adjacent):
" ++ slot1 ++ u "

AUDITOR SUBMISSION (separate ward):
" ++ slot2 ++ u "

Analyze for score variance, checklist consistency, feature implausibility, and statistical independence.

Return ONLY valid JSON (no markdown fences):
{
  " ++ q "consensus_score" ++ u ": 0-100,
  " ++ q "score_variance" ++ u ": 0-100,
  " ++ q "collusion_risk" ++ u ": " ++ q "low|medium|high" ++ u ",
  " ++ q "collusion_indicators" ++ u ": [" ++ q "indicator1" ++ u "],
  " ++ q "independence_confirmed" ++ u ": true,
  " ++ q "reasoning" ++ u ": " ++ q "brief explanation" ++ u ",
  " ++ q "recommendation" ++ u ": " ++ q "mint_token|hold_pending_review|reject_flag_escalate" ++ u ",
  " ++ q "confidence" ++ u ": " ++ q "high|medium|low" ++ u "
}".

(** [fmt(subs[i]) if len(subs) > i else 'N/A'] *)
Definition slot (subs : list SubmissionModel.t) (i : nat) : result pystr :=
  if (i <? List.length subs)%nat then
    match py_index subs i with
    | Ok s => Ok (fmt s)
    | Raise e => Raise e
    end
  else Ok NOT_AVAILABLE.

(** [subs[0].facilityId if subs else "UNKNOWN"] *)
Definition facility_of (subs : list SubmissionModel.t) : result pystr :=
  match subs with
  | _ :: _ =>
      match py_index subs 0 with
      | Ok s => Ok (SubmissionModel.facilityId s)
      | Raise e => Raise e
      end
  | [] => Ok (u "UNKNOWN")
  end.

Definition collusion_prompt (req : CollusionRequest.t) : result pystr :=
  let subs := CollusionRequest.submissions req in
  match facility_of subs with
  | Raise e => Raise e
  | Ok facility_id =>
      match slot subs 0 with
      | Raise e => Raise e
      | Ok slot0 =>
          match slot subs 1 with
          | Raise e => Raise e
          | Ok slot1 =>
              match slot subs 2 with
              | Raise e => Raise e
              | Ok slot2 =>
                  Ok (collusion_template facility_id slot0 slot1 slot2)
              end
          end
      end
  end.

Definition run_collusion_check (req : CollusionRequest.t) : M json :=
  prompt <- lift (collusion_prompt req) ;;
  client <- get_client ;;
  logger_info LOGGER (u "📤 [Mode 2] Collusion check → " ++ TEXT_MODEL) ;;
  response <- create client
    {| model := TEXT_MODEL;
       temperature := 1 # 10;
       messages := [ SYSTEM_MESSAGE; user_message prompt ] |} ;;
  logger_info LOGGER (u "✅ [Mode 2] Response received") ;;
  text <- lift (first_content response) ;;
  parse_or_raise (u "Could not parse collusion response: ") text.
End Collusion.

(** *** Modes 3 and 4 *)

Section Floats.
(** Python floats and their [repr] are left abstract. *)
Variable float : Type.
Variable float_repr : float -> pystr.

Definition narrative_prompt (req : HealthNarrativeRequest.t float) : pystr :=
  u "You are speaking to the community of " ++ HealthNarrativeRequest.village_name req ++ u ". Population: " ++ int_str (HealthNarrativeRequest.population req) ++ u " people.

Over the past 90 days, your village maintained clean toilets. The improvement prevented an estimated " ++ int_str (HealthNarrativeRequest.cases_prevented req) ++ u " cases of diarrheal illness.

Write ONE warm paragraph (4-6 sentences) explaining this impact. Speak as a respected elder at a village meeting. Use plain language. Never use these words: data, score, metric, percentage, coefficient, algorithm, system.

Focus on: protection of children, health of families, pride in community achievement, connection between clean toilets and healthy children.".

Definition generate_health_narrative (req : HealthNarrativeRequest.t float)
  : M pystr :=
  let prompt := narrative_prompt req in
  client <- get_client ;;
  logger_info LOGGER (u "📤 [Mode 3] Health narrative → " ++ TEXT_MODEL) ;;
  response <- create client
    {| model := TEXT_MODEL;
       temperature := 7 # 10;
       messages := [ SYSTEM_MESSAGE; user_message prompt ] |} ;;
  logger_info LOGGER (u "✅ [Mode 3] Response received") ;;
  text <- lift (first_content response) ;;
  ret (match text with
       | Some (c :: r) => c :: r
       | _ => []
       end).

Definition investor_prompt (req : InvestorSignalRequest.t float) : pystr :=
  u "You are SanSure's investment signal generator. Analyze this 90-day hygiene score history for " ++ InvestorSignalRequest.village_name req ++ u ":

Scores: " ++ list_repr float_repr (InvestorSignalRequest.history req) ++ u "
Average: " ++ float_repr (InvestorSignalRequest.avg req) ++ u "
Standard Deviation: " ++ float_repr (InvestorSignalRequest.std_dev req) ++ u "

Generate investment signals for a rural sanitation trust-rating platform.

Return ONLY valid JSON (no markdown fences):
{
  " ++ q "credit_price_inr" ++ u ": 80-500,
  " ++ q "volatility_index" ++ u ": 0-100,
  " ++ q "risk_rating" ++ u ": " ++ q "AAA|AA|A|BBB|BB|B|CCC|D" ++ u ",
  " ++ q "trend" ++ u ": " ++ q "strongly_improving|improving|stable|declining|strongly_declining" ++ u ",
  " ++ q "investment_signal" ++ u ": " ++ q "max 15 words" ++ u ",
  " ++ q "disbursement_ready" ++ u ": true,
  " ++ q "30_day_forecast" ++ u ": " ++ q "improving|stable|at_risk" ++ u "
}".

Definition generate_investor_signal (req : InvestorSignalRequest.t float)
  : M json :=
  let prompt := investor_prompt req in
  client <- get_client ;;
  logger_info LOGGER (u "📤 [Mode 4] Investor signal → " ++ TEXT_MODEL) ;;
  response <- create client
    {| model := TEXT_MODEL;
       temperature := 1 # 10;
       messages := [ SYSTEM_MESSAGE; user_message prompt ] |} ;;
  logger_info LOGGER (u "✅ [Mode 4] Response received") ;;
  text <- lift (first_content response) ;;
  parse_or_raise (u "Could not parse investor signal response: ") text.
End Floats.

(* ------------------------------------------------------------------ *)
(** ** main.py *)

Definition MAIN_LOGGER : pystr := u "main".

Definition health : M json :=
  try_except
    (get_client ;;
     ret (JObj [ (u "status", JStr (u "ok")); (u "model", JStr VISION_MODEL) ]))
    (fun e =>
       match e with
       | ValueError _ =>
           Some (ret (JObj [ (u "status", JStr (u "error"));
                             (u "detail", JStr (exn_str e)) ]))
       | _ => None
       end).

(** [except Exception as e: logger.error(what, e);
     raise HTTPException(status_code=500, detail=str(e))] *)
Definition http_500 {A} (what : pystr) (e : exn) : option (M A) :=
  Some (logger_error MAIN_LOGGER (what ++ exn_str e) ;;
        raise (HTTPException 500 (exn_str e))).

Definition vision_endpoint (req : VisionRequest.t) : M json :=
  try_except
    (result <- run_vision_analysis req ;; ret result)
    (http_500 (u "Vision analysis failed: ")).

Section Endpoints.
Variable isprintable : codepoint -> bool.
Variable float : Type.
Variable float_repr : float -> pystr.

Definition collusion_endpoint (req : CollusionRequest.t) : M json :=
  try_except
    (result <- run_collusion_check isprintable req ;; ret result)
    (http_500 (u "Collusion check failed: ")).

Definition health_narrative_endpoint (req : HealthNarrativeRequest.t float)
  : M json :=
  try_except
    (narrative <- generate_health_narrative float req ;;
     ret (JObj [ (u "narrative", JStr narrative) ]))
    (http_500 (u "Health narrative failed: ")).

Definition investor_signal_endpoint (req : InvestorSignalRequest.t float)
  : M json :=
  try_except
    (result <- generate_investor_signal float float_repr req ;; ret result)
    (http_500 (u "Investor signal failed: ")).
End Endpoints.

(* ------------------------------------------------------------------ *)
(** ** Notions used to state the properties *)

(** The text is a JSON document of the JSON grammar: the decoder with the
    non-standard constants switched off accepts it. *)
Definition strict_json (t : pystr) : option json := decode false t.


(** [X] is empty or its first character satisfies [P]. *)
Definition head_all (P : codepoint -> bool) (X : pystr) : bool :=
  match X with
  | [] => true
  | c :: _ => P c
  end.


(** [pre] is not empty and does not end with Python whitespace. *)
Definition ends_nonspace (pre : pystr) : Prop :=
  pre <> [] /\ py_isspace (last pre 0) = false.


(** The credential is absent (unset or empty) or is the placeholder. *)
Definition credential_missing (env : Environment) : Prop :=
  getenv env (u "GROQ_API_KEY") = None
  \/ getenv env (u "GROQ_API_KEY") = Some []
  \/ getenv env (u "GROQ_API_KEY") = Some PLACEHOLDER_API_KEY.

(** The provider answers the call with [text] as the content of the
    first choice. *)
Definition answers (env : Environment) (text : option pystr) : Prop :=
  forall client req,
    exists rest,
      chat_completions env client req
      = Ok {| choices := {| choice_content := text |} :: rest |}.

(** What the collusion prompt shows in slot [i]. *)
Definition rendered_slot (isprintable : codepoint -> bool)
    (subs : list SubmissionModel.t) (i : nat) : pystr :=
  match nth_error subs i with
  | Some s => fmt isprintable s
  | None => NOT_AVAILABLE
  end.

Definition HOUSEHOLD_LABEL : pystr := u "HOUSEHOLD SUBMISSION:".
Definition PEER_LABEL : pystr := u "PEER SUBMISSION (non-adjacent):".
Definition AUDITOR_LABEL : pystr := u "AUDITOR SUBMISSION (separate ward):".


Definition fenced_vision_result : pystr :=
  u "```json
{" ++ q "hygiene_score" ++ u ": 80}
```".

(** A sample environment: credential [key], every call answered by
    [text]. *)
Definition sample_env (key : option pystr) (text : option pystr) : Environment :=
  {| getenv := fun name => if pystr_eqb name (u "GROQ_API_KEY") then key else None;
     chat_completions := fun _ _ => Ok {| choices := [ {| choice_content := text |} ] |} |}.

Definition sample_checklist : ChecklistModel.t :=
  {| ChecklistModel.door := true; ChecklistModel.water := false;
     ChecklistModel.clean := true; ChecklistModel.toilet := true |}.

Definition sample_vision : VisionRequest.t :=
  {| VisionRequest.base64_image := u "aGVsbG8=";
     VisionRequest.checklist := sample_checklist |}.

Definition sample_submission (n : Z) : SubmissionModel.t :=
  {| SubmissionModel.id := u "s" ++ int_str n;
     SubmissionModel.facilityId := u "F-7";
     SubmissionModel.submitterType := u "peer";
     SubmissionModel.score := (70 + n)%Z;
     SubmissionModel.checklist := sample_checklist;
     SubmissionModel.features := [u "door"; u "it's"];
     SubmissionModel.discrepancies := [] |}.

Definition all_printable (c : codepoint) : bool := true.

(** A stand-in for floats in the samples: the floats of integer value,
    printed with one decimal. *)
Definition sample_float_repr (x : Z) : pystr := int_str x ++ u ".0".

Definition sample_narrative (avg : Z) : HealthNarrativeRequest.t Z :=
  {| HealthNarrativeRequest.village_name := u "Rampur";
     HealthNarrativeRequest.population := 1200%Z;
     HealthNarrativeRequest.avg_score := avg;
     HealthNarrativeRequest.cases_prevented := 14%Z |}.

Definition sample_investor : InvestorSignalRequest.t Z :=
  {| InvestorSignalRequest.village_name := u "Rampur";
     InvestorSignalRequest.history := [60; 65; 70]%Z;
     InvestorSignalRequest.avg := 65%Z;
     InvestorSignalRequest.std_dev := 4%Z |}.

Definition sample_collusion (n : nat) : CollusionRequest.t :=
  {| CollusionRequest.submissions := map sample_submission (map Z.of_nat (seq 0 n)) |}.

(** The provider fails every call with the exception [e]. *)
Definition provider_fails (env : Environment) (e : exn) : Prop :=
  forall client req, chat_completions env client req = Raise e.

(** The provider answers every call with a completion that has no
    choice. *)
Definition no_choices (env : Environment) : Prop :=
  forall client req, chat_completions env client req = Ok {| choices := [] |}.

(** Three backticks in a row occur somewhere in [s]. *)
Fixpoint contains_fence (s : pystr) : bool :=
  match s with
  | [] => false
  | _ :: r => startswith FENCE s || contains_fence r
  end.

(** [s] is empty, or neither starts nor ends with Python whitespace. *)
Definition trimmed (s : pystr) : Prop :=
  s = [] \/ (head_all (fun c => negb (py_isspace c)) s = true /\ ends_nonspace s).

(** Number of line feeds in [s]. *)
Definition line_feeds (s : pystr) : nat := count_occ N.eq_dec s 10.

(** What [fmt] reads of a submission. *)
Definition fmt_fields (s : SubmissionModel.t) : Z * ChecklistModel.t * list pystr :=
  (SubmissionModel.score s, SubmissionModel.checklist s, SubmissionModel.features s).

(** The facility of the first submission, if any. *)
Definition first_facility (subs : list SubmissionModel.t) : option pystr :=
  match subs with
  | s :: _ => Some (SubmissionModel.facilityId s)
  | [] => None
  end.

(** The ERROR records of a trace. *)
Definition is_error_log (e : event) : bool :=
  match e with
  | Log _ ERROR _ => true
  | _ => false
  end.

Definition error_logs (tr : list event) : list event := filter is_error_log tr.

(** [v] is a value that Python counts as true and that the decoder gives
    for the cleaned content of the first choice of an answer of the
    provider. *)
Definition decoded_from_provider (env : Environment) (v : json) : Prop :=
  truthy v = true
  /\ exists client req t rest,
       chat_completions env client req
       = Ok {| choices := {| choice_content := Some t |} :: rest |}
       /\ json_loads (cleaned t) = Some v.

(** Why a structured operation, whose error sentence is [could_not],
    raises [e]: the credential is missing; a call to the provider
    raised [e]; an answer had no choice; the first choice of an answer
    had no content; the content of the first choice is rejected by the
    decoder once cleaned, or decodes to a value that Python counts as
    false. *)
Inductive failure_cause (env : Environment) (could_not : pystr) : exn -> Prop :=
| no_credential :
    credential_missing env ->
    failure_cause env could_not (ValueError CONFIG_ERROR)
| provider_raised client req e :
    chat_completions env client req = Raise e ->
    failure_cause env could_not e
| no_choice client req :
    chat_completions env client req = Ok {| choices := [] |} ->
    failure_cause env could_not (IndexError (u "list index out of range"))
| no_content client req rest :
    chat_completions env client req
    = Ok {| choices := {| choice_content := None |} :: rest |} ->
    failure_cause env could_not
      (TypeError (u "'NoneType' object is not subscriptable"))
| no_usable_value client req t rest :
    chat_completions env client req
    = Ok {| choices := {| choice_content := Some t |} :: rest |} ->
    (json_loads (cleaned t) = None
     \/ exists v, json_loads (cleaned t) = Some v /\ truthy v = false) ->
    failure_cause env could_not (ValueError (could_not ++ slice_to 300 t)).

(** [e] is an exception of the service or of the provider client, not
    the HTTP exception of the web framework, which only main.py raises
    (and whose [str] is the framework's own). *)
Definition service_error (e : exn) : Prop :=
  match e with
  | HTTPException _ _ => False
  | _ => True
  end.

(** [endpoint] is [service] inside the handler of main.py: a value [a]
    of the service is returned as [f a] without a further event; an
    exception [e] of the service is logged once on the logger of
    main.py, [what] followed by [str(e)], and raised again as an
    [HTTPException] with status 500 and detail [str(e)]. *)
Definition wraps {A} (what : pystr) (f : A -> json) (service : M A)
    (endpoint : M json) (env : Environment) : Prop :=
  match outcome_of (service env) with
  | Ok a => endpoint env = (trace_of (service env), Ok (f a))
  | Raise e =>
      service_error e ->
      endpoint env
      = (trace_of (service env) ++ [Log MAIN_LOGGER ERROR (what ++ exn_str e)],
         Raise (HTTPException 500 (exn_str e)))
  end.

(** Sample environments: credential [key], every call failing with [e];
    credential [key], every call answered without a choice. *)
Definition failing_env (key : option pystr) (e : exn) : Environment :=
  {| getenv := fun name => if pystr_eqb name (u "GROQ_API_KEY") then key else None;
     chat_completions := fun _ _ => Raise e |}.

Definition choiceless_env (key : option pystr) : Environment :=
  {| getenv := fun name => if pystr_eqb name (u "GROQ_API_KEY") then key else None;
     chat_completions := fun _ _ => Ok {| choices := [] |} |}.

(** A second sample submission: another id, submitter and discrepancy
    list, another facility except for the first one, the same score,
    checklist and features. *)
Definition relabelled_submission (n : Z) : SubmissionModel.t :=
  {| SubmissionModel.id := u "other";
     SubmissionModel.facilityId := if (n =? 0)%Z then u "F-7" else u "F-9";
     SubmissionModel.submitterType := u "auditor";
     SubmissionModel.score := (70 + n)%Z;
     SubmissionModel.checklist := sample_checklist;
     SubmissionModel.features := [u "door"; u "it's"];
     SubmissionModel.discrepancies := [u "no water"] |}.

Definition relabelled_collusion (n : nat) : CollusionRequest.t :=
  {| CollusionRequest.submissions :=
       map relabelled_submission (map Z.of_nat (seq 0 n)) |}.

(* ================================================================== *)
(** * Properties of the embedding *)

(** ** The model on concrete inputs *)

Example loads_nested_document :
  json_loads (u " { " ++ q "a" ++ u " : [1, -0, 2.50, true, null] ,
  " ++ q "b" ++ u ": {}, " ++ q "a" ++ u ": -1.5E+3 } ")
  = Some (JObj [ (u "a", JFloat true 15 2); (u "b", JObj []) ]).
Proof. vm_compute. reflexivity. Qed.

Example loads_array_of_numbers :
  json_loads (u "[1, -0, 2.50, 1e5, 0.0]")
  = Some (JArr [ JInt 1; JInt 0; JFloat false 250 (-2); JFloat false 1 5;
                 JFloat false 0 (-1) ]).
Proof. vm_compute. reflexivity. Qed.

Example loads_escapes_and_surrogate_pair :
  json_loads (q "café\n😀\/")
  = Some (JStr [99; 97; 102; 233; 10; 128512; 47]).
Proof. vm_compute. reflexivity. Qed.

Example loads_lone_surrogate :
  json_loads (q "\ud83dA") = Some (JStr [55357; 65]).
Proof. vm_compute. reflexivity. Qed.

Example loads_rejects_malformed :
  map json_loads
    [ u ""; u "[1,]"; u "01"; u "1."; u "-"; u "nul"; u "{'a': 1}";
      u "{" ++ q "a" ++ u ":1"; u "{" ++ q "a" ++ u ":1,}";
      [34; 97; 10; 34]; [34; 97]; q "\x"; q "\u12"; q "\ud83d\u12";
      u "[1] 2"; u "{" ++ q "a" ++ u " 1}" ]
  = repeat None 16.
Proof. vm_compute. reflexivity. Qed.

(** Python's decoder accepts the constants that the JSON grammar does
    not have. *)
Example loads_constants :
  map json_loads [ u "NaN"; u "Infinity"; u "-Infinity" ]
  = [ Some (JConst FNaN); Some (JConst FInfinity); Some (JConst FNegInfinity) ]
  /\ map strict_json [ u "NaN"; u "Infinity"; u "-Infinity" ] = [ None; None; None ].
Proof. split; vm_compute; reflexivity. Qed.

Example truth_values :
  map truthy
    [ JNull; JBool false; JInt 0; JFloat true 0 (-1); JFloat false 1 (-400);
      JStr []; JArr []; JObj [];
      JBool true; JInt (-3); JFloat false 5 (-324); JConst FNaN; JStr (u "0");
      JArr [ JInt 0 ]; JObj [ (u "a", JNull) ] ]
  = repeat false 8 ++ repeat true 7.
Proof. vm_compute. reflexivity. Qed.

Example sub_fences_examples :
  sub_fences (u "```json
{}
```") = u "{}
"
  /\ sub_fences (u "```json{}```") = u "{}"
  /\ sub_fences (u "``` [1] ```") = u " [1] "
  /\ sub_fences (u "a``b````c") = u "a``b`c"
  /\ sub_fences (q "```") = qq.
Proof. repeat split; vm_compute; reflexivity. Qed.

Example strip_examples :
  strip (u "  a b
 ") = u "a b"
  /\ strip [160; 11; 123; 125; 12; 8232] = u "{}"
  /\ strip (u "
") = [].
Proof. repeat split; vm_compute; reflexivity. Qed.

Example repr_examples :
  str_repr all_printable (u "door") = u "'door'"
  /\ str_repr all_printable (u "it's") = [34] ++ u "it's" ++ [34]
  /\ str_repr all_printable (u "a\b" ++ [10; 7]) = u "'a\\b\n\x07'"
  /\ list_repr (str_repr all_printable) [ u "door"; u "tap" ] = u "['door', 'tap']"
  /\ list_repr (str_repr all_printable) [] = u "[]"
  /\ model_dump_str sample_checklist
     = u "{'door': True, 'water': False, 'clean': True, 'toilet': True}"
  /\ int_str (-120) = u "-120" /\ int_str 0 = u "0".
Proof. repeat split; vm_compute; reflexivity. Qed.

(** ** Strings *)

Lemma lstrip_snoc_newline (t : pystr) :
  lstrip (t ++ [10]) = match lstrip t with [] => [] | l => l ++ [10] end.
Proof.
  induction t as [|c r IH]; [reflexivity|].
  simpl. destruct (py_isspace c); [exact IH | reflexivity].
Qed.

Lemma rstrip_snoc_newline (l : pystr) : rstrip (l ++ [10]) = rstrip l.
Proof. unfold rstrip. rewrite rev_app_distr. reflexivity. Qed.

Lemma strip_snoc_newline (t : pystr) : strip (t ++ [10]) = strip t.
Proof.
  unfold strip. rewrite lstrip_snoc_newline.
  destruct (lstrip t) as [|c l] eqn:E; [reflexivity|].
  apply rstrip_snoc_newline.
Qed.

Lemma startswith_head_neq (a b : codepoint) (p s : pystr) :
  a <> b -> startswith (a :: p) (b :: s) = false.
Proof.
  intros Hab. cbn [startswith].
  destruct (N.eqb_spec a b); [contradiction | reflexivity].
Qed.

Lemma fence_match_no_backtick (c : codepoint) (r : pystr) :
  c <> BACKTICK -> fence_match (c :: r) = 0%nat.
Proof.
  intros Hc. unfold fence_match.
  change FENCE_JSON with (BACKTICK :: tl FENCE_JSON).
  change FENCE with (BACKTICK :: tl FENCE).
  rewrite !startswith_head_neq by (intro E; apply Hc; symmetry; exact E).
  reflexivity.
Qed.

Lemma sub_fences_no_backtick (t tail : pystr) :
  ~ In BACKTICK t ->
  sub_fences_from 0 (t ++ tail) = t ++ sub_fences_from 0 tail.
Proof.
  induction t as [|c r IH]; intros Hn; [reflexivity|].
  change ((c :: r) ++ tail) with (c :: (r ++ tail)).
  cbn [sub_fences_from].
  rewrite fence_match_no_backtick.
  - cbn [app]. f_equal. apply IH. intro Hin. apply Hn. right. exact Hin.
  - intro E. apply Hn. left. exact E.
Qed.

Lemma sub_fences_json_open (rest : pystr) :
  sub_fences (u "```json
" ++ rest) = sub_fences rest.
Proof. reflexivity. Qed.

Lemma cleaned_fenced (t : pystr) :
  ~ In BACKTICK t ->
  cleaned (u "```json
" ++ t ++ u "
```") = strip t.
Proof.
  intros Hn. unfold cleaned. rewrite sub_fences_json_open.
  unfold sub_fences. rewrite sub_fences_no_backtick by assumption.
  change (sub_fences_from 0 (u "
```")) with [10].
  apply strip_snoc_newline.
Qed.

Lemma cleaned_bare (t : pystr) : ~ In BACKTICK t -> cleaned t = strip t.
Proof.
  intros Hn. unfold cleaned, sub_fences.
  rewrite <- (app_nil_r t) at 1.
  rewrite sub_fences_no_backtick by assumption.
  cbn [sub_fences_from]. rewrite app_nil_r. reflexivity.
Qed.

(** ** The decoder: every call consumes input *)

Functional Scheme scanstring_ind := Induction for scanstring Sort Prop.

Lemma skip_ws_length (s : pystr) :
  (List.length (skip_ws s) <= List.length s)%nat.
Proof.
  induction s as [|c r IH]; cbn [skip_ws]; [lia|].
  destruct (json_ws c); cbn [List.length]; lia.
Qed.

Lemma span_digits_app (s : pystr) :
  s = fst (span_digits s) ++ snd (span_digits s).
Proof.
  induction s as [|c r IH]; cbn [span_digits]; [reflexivity|].
  destruct (is_digit c); [|reflexivity].
  destruct (span_digits r) as [ds rest]. cbn in IH |- *. congruence.
Qed.

Lemma span_digits_length (s ds rest : pystr) :
  span_digits s = (ds, rest) ->
  List.length s = (List.length ds + List.length rest)%nat.
Proof.
  intros E. rewrite (span_digits_app s) at 1. rewrite E, length_app. reflexivity.
Qed.

Lemma scanstring_shorter (acc s str rest : pystr) :
  scanstring acc s = Some (str, rest) ->
  (List.length rest < List.length s)%nat.
Proof.
  revert str rest.
  functional induction (scanstring acc s); intros str rest H;
    try discriminate; try (injection H as <- <-); cbn [List.length]; try lia;
    match goal with
    | IH : forall str rest, scanstring _ _ = _ -> _,
      H : scanstring _ _ = Some _ |- _ =>
        apply IH in H; clear - H; cbn [List.length] in H; lia
    end.
Qed.

Lemma int_part_shorter (s ids rest : pystr) :
  int_part s = Some (ids, rest) ->
  (List.length rest < List.length s)%nat.
Proof.
  unfold int_part. destruct s as [|d r]; [discriminate|].
  destruct (d =? 48).
  - intros H; injection H as <- <-. cbn. lia.
  - destruct (is_digit d) eqn:Ed; [|discriminate].
    intros H; injection H as H. cbn [span_digits] in H. rewrite Ed in H.
    destruct (span_digits r) as [ds rest'] eqn:Er.
    injection H as <- <-. apply span_digits_length in Er. cbn. lia.
Qed.

Lemma frac_part_length (s : pystr) :
  (List.length (snd (frac_part s)) <= List.length s)%nat.
Proof.
  unfold frac_part. destruct s as [|c r]; [cbn; lia|].
  destruct (c =? 46); [|cbn; lia].
  destruct (span_digits r) as [[|d ds] rest] eqn:E; [cbn; lia|].
  apply span_digits_length in E. cbn in E |- *. lia.
Qed.

Lemma exp_digits_length (eneg : bool) (s r : pystr) :
  (List.length r <= List.length s)%nat ->
  (List.length (snd (exp_digits eneg s r)) <= List.length s)%nat.
Proof.
  intros H. unfold exp_digits.
  destruct (span_digits r) as [[|d ds] rest] eqn:E; [cbn; lia|].
  apply span_digits_length in E. cbn in E |- *. lia.
Qed.

Lemma exp_part_length (s : pystr) :
  (List.length (snd (exp_part s)) <= List.length s)%nat.
Proof.
  unfold exp_part. destruct s as [|e r]; [cbn; lia|].
  destruct ((e =? 101) || (e =? 69)); [|cbn; lia].
  destruct r as [|sg r']; [cbn; lia|].
  destruct (sg =? 45); [|destruct (sg =? 43)];
    apply exp_digits_length; cbn; lia.
Qed.

Lemma match_number_shorter (s : pystr) (v : json) (rest : pystr) :
  match_number s = Some (v, rest) ->
  (List.length rest < List.length s)%nat.
Proof.
  unfold match_number.
  assert (Hs : (List.length (snd (sign_part s)) <= List.length s)%nat).
  { unfold sign_part. destruct s as [|c r]; [cbn; lia|].
    destruct (c =? 45); cbn; lia. }
  destruct (sign_part s) as [neg s1]. cbn [snd] in Hs.
  destruct (int_part s1) as [[ids s2]|] eqn:Ei; [|discriminate].
  apply int_part_shorter in Ei.
  pose proof (frac_part_length s2) as Hf.
  destruct (frac_part s2) as [fds s3]. cbn [snd] in Hf.
  pose proof (exp_part_length s3) as He.
  destruct (exp_part s3) as [ex s4]. cbn [snd] in He.
  destruct fds, ex; intros H; injection H as _ <-; lia.
Qed.

Lemma skipn_length_lt {A} (n : nat) (l : list A) :
  (0 < n)%nat -> l <> [] -> (List.length (skipn n l) < List.length l)%nat.
Proof.
  intros Hn Hl. rewrite length_skipn. destruct l; [contradiction|].
  cbn [List.length]. lia.
Qed.

Lemma startswith_nonempty (p s : pystr) :
  p <> [] -> startswith p s = true -> s <> [].
Proof. destruct p, s; cbn; congruence. Qed.

Lemma some_skipn_shorter (n : nat) (p s : pystr) (v0 v : json) (rest : pystr) :
  (0 < n)%nat -> p <> [] -> startswith p s = true ->
  Some (v0, skipn n s) = Some (v, rest) ->
  (List.length rest < List.length s)%nat.
Proof.
  intros Hn Hp Hs H. injection H as _ <-.
  apply skipn_length_lt; [exact Hn|].
  apply (startswith_nonempty p); assumption.
Qed.

Lemma scan_literal_shorter (consts : bool) (s : pystr) (v : json) (rest : pystr) :
  scan_literal consts s = Some (v, rest) ->
  (List.length rest < List.length s)%nat.
Proof.
  unfold scan_literal.
  destruct (startswith (u "null") s) eqn:E1;
    [apply (some_skipn_shorter 4 (u "null")); [lia | discriminate | exact E1]|].
  destruct (startswith (u "true") s) eqn:E2;
    [apply (some_skipn_shorter 4 (u "true")); [lia | discriminate | exact E2]|].
  destruct (startswith (u "false") s) eqn:E3;
    [apply (some_skipn_shorter 5 (u "false")); [lia | discriminate | exact E3]|].
  destruct (match_number s) as [[v' r']|] eqn:En.
  { intros H; injection H as <- <-. apply match_number_shorter in En. exact En. }
  destruct consts; cbn [andb]; [|discriminate].
  destruct (startswith (u "NaN") s) eqn:E4;
    [apply (some_skipn_shorter 3 (u "NaN")); [lia | discriminate | exact E4]|].
  destruct (startswith (u "Infinity") s) eqn:E5;
    [apply (some_skipn_shorter 8 (u "Infinity")); [lia | discriminate | exact E5]|].
  destruct (startswith (u "-Infinity") s) eqn:E6;
    [apply (some_skipn_shorter 9 (u "-Infinity")); [lia | discriminate | exact E6]|].
  discriminate.
Qed.

Section ScannerFacts.
Variable consts : bool.

Lemma scan_shorter (fuel : nat) :
  (forall s v rest,
      scan_once consts fuel s = Some (v, rest) ->
      (List.length rest < List.length s)%nat)
  /\ (forall acc s v rest,
         array_items consts fuel acc s = Some (v, rest) ->
         (List.length rest < List.length s)%nat)
  /\ (forall acc s v rest,
         object_pairs consts fuel acc s = Some (v, rest) ->
         (List.length rest < List.length s)%nat).
Proof.
  induction fuel as [|f (IHv & IHa & IHo)];
    [repeat split; intros; discriminate|].
  split; [|split].
  - intros s v rest. cbn [scan_once].
    destruct s as [|c r]; [discriminate|].
    destruct (c =? 34).
    { destruct (scanstring [] r) as [[str rest']|] eqn:E; [|discriminate].
      intros H; injection H as _ <-. apply scanstring_shorter in E. cbn. lia. }
    destruct (c =? 123).
    { pose proof (skip_ws_length r) as Hw.
      destruct (skip_ws r) as [|c1 rest1]; [discriminate|].
      cbn [List.length] in Hw |- *.
      destruct (c1 =? 125); [intros H; injection H as _ <-; lia|].
      destruct (c1 =? 34); [|discriminate].
      intros H. apply IHo in H. lia. }
    destruct (c =? 91).
    { pose proof (skip_ws_length r) as Hw.
      destruct (skip_ws r) as [|c1 rest1].
      - intros H. apply IHa in H. cbn in H. lia.
      - cbn [List.length] in Hw |- *.
        destruct (c1 =? 93); [intros H; injection H as _ <-; lia|].
        intros H. apply IHa in H. cbn [List.length] in H. lia. }
    apply scan_literal_shorter.
  - intros acc s v rest. cbn [array_items].
    destruct (scan_once consts f s) as [[v1 rest1]|] eqn:E; [|discriminate].
    apply IHv in E. pose proof (skip_ws_length rest1) as Hw.
    destruct (skip_ws rest1) as [|c rest']; [discriminate|].
    cbn [List.length] in Hw.
    destruct (c =? 93); [intros H; injection H as _ <-; lia|].
    destruct (c =? 44); [|discriminate].
    intros H. apply IHa in H. pose proof (skip_ws_length rest'). lia.
  - intros acc s v rest. cbn [object_pairs].
    destruct (scanstring [] s) as [[key rest0]|] eqn:Ek; [|discriminate].
    apply scanstring_shorter in Ek. pose proof (skip_ws_length rest0) as Hw0.
    destruct (skip_ws rest0) as [|c rest1]; [discriminate|].
    cbn [List.length] in Hw0.
    destruct (c =? 58); [|discriminate].
    destruct (scan_once consts f (skip_ws rest1)) as [[v1 rest2]|] eqn:E;
      [|discriminate].
    apply IHv in E. pose proof (skip_ws_length rest1) as Hw1.
    pose proof (skip_ws_length rest2) as Hw2.
    destruct (skip_ws rest2) as [|c2 rest3]; [discriminate|].
    cbn [List.length] in Hw2.
    destruct (c2 =? 125); [intros H; injection H as _ <-; lia|].
    destruct (c2 =? 44); [|discriminate].
    pose proof (skip_ws_length rest3) as Hw3.
    destruct (skip_ws rest3) as [|c4 rest4]; [discriminate|].
    cbn [List.length] in Hw3.
    destruct (c4 =? 34); [|discriminate].
    intros H. apply IHo in H. lia.
Qed.

(** The fuel never runs out: beyond twice the length of the input, more
    fuel changes nothing. *)
Lemma fuel_stable (f1 : nat) :
  (forall f2 s,
      (2 * List.length s + 1 <= f1)%nat -> (f1 <= f2)%nat ->
      scan_once consts f1 s = scan_once consts f2 s)
  /\ (forall f2 acc s,
         (2 * List.length s + 2 <= f1)%nat -> (f1 <= f2)%nat ->
         array_items consts f1 acc s = array_items consts f2 acc s)
  /\ (forall f2 acc s,
         (2 * List.length s + 1 <= f1)%nat -> (f1 <= f2)%nat ->
         object_pairs consts f1 acc s = object_pairs consts f2 acc s).
Proof.
  induction f1 as [|f (IHv & IHa & IHo)];
    [repeat split; intros; lia|].
  split; [|split].
  - intros [|f2] s Hb Hle; [lia|]. cbn [scan_once].
    destruct s as [|c r]; [reflexivity|]. cbn [List.length] in Hb.
    destruct (c =? 34); [reflexivity|].
    destruct (c =? 123).
    { pose proof (skip_ws_length r) as Hw.
      destruct (skip_ws r) as [|c1 rest1]; [reflexivity|].
      cbn [List.length] in Hw.
      destruct (c1 =? 125); [reflexivity|].
      destruct (c1 =? 34); [|reflexivity].
      apply IHo; lia. }
    destruct (c =? 91); [|reflexivity].
    pose proof (skip_ws_length r) as Hw.
    destruct (skip_ws r) as [|c1 rest1].
    + apply IHa; cbn [List.length]; lia.
    + destruct (c1 =? 93); [reflexivity|]. apply IHa; lia.
  - intros [|f2] acc s Hb Hle; [lia|]. cbn [array_items].
    rewrite (IHv f2 s) by lia.
    destruct (scan_once consts f2 s) as [[v1 rest1]|] eqn:E; [|reflexivity].
    apply (proj1 (scan_shorter f2)) in E.
    pose proof (skip_ws_length rest1) as Hw.
    destruct (skip_ws rest1) as [|c rest']; [reflexivity|].
    cbn [List.length] in Hw.
    destruct (c =? 93); [reflexivity|].
    destruct (c =? 44); [|reflexivity].
    pose proof (skip_ws_length rest'). apply IHa; lia.
  - intros [|f2] acc s Hb Hle; [lia|]. cbn [object_pairs].
    destruct (scanstring [] s) as [[key rest0]|] eqn:Ek; [|reflexivity].
    apply scanstring_shorter in Ek. pose proof (skip_ws_length rest0) as Hw0.
    destruct (skip_ws rest0) as [|c rest1]; [reflexivity|].
    cbn [List.length] in Hw0.
    destruct (c =? 58); [|reflexivity].
    pose proof (skip_ws_length rest1) as Hw1.
    rewrite (IHv f2 (skip_ws rest1)) by lia.
    destruct (scan_once consts f2 (skip_ws rest1)) as [[v1 rest2]|] eqn:E;
      [|reflexivity].
    apply (proj1 (scan_shorter f2)) in E.
    pose proof (skip_ws_length rest2) as Hw2.
    destruct (skip_ws rest2) as [|c2 rest3]; [reflexivity|].
    cbn [List.length] in Hw2.
    destruct (c2 =? 125); [reflexivity|].
    destruct (c2 =? 44); [|reflexivity].
    pose proof (skip_ws_length rest3) as Hw3.
    destruct (skip_ws rest3) as [|c4 rest4]; [reflexivity|].
    cbn [List.length] in Hw3.
    destruct (c4 =? 34); [|reflexivity].
    apply IHo; lia.
Qed.

(** [decode] gives its scanner enough fuel. *)
Lemma decode_fuel (s : pystr) (fuel : nat) :
  (2 * List.length s + 2 <= fuel)%nat ->
  scan_once consts fuel (skip_ws s)
  = scan_once consts (2 * List.length s + 2) (skip_ws s).
Proof.
  intros H. symmetry. pose proof (skip_ws_length s).
  apply (proj1 (fuel_stable _)); lia.
Qed.
End ScannerFacts.




(** ** Whitespace *)

Lemma json_ws_isspace (c : codepoint) : json_ws c = true -> py_isspace c = true.
Proof.
  unfold json_ws. intros H.
  repeat (apply orb_prop in H; destruct H as [H|H]);
    apply N.eqb_eq in H; subst c; reflexivity.
Qed.

Lemma isspace_not_ws (c : codepoint) : py_isspace c = false -> json_ws c = false.
Proof.
  intros H. destruct (json_ws c) eqn:E; [|reflexivity].
  apply json_ws_isspace in E. congruence.
Qed.







Lemma lstrip_app (ws Y : pystr) :
  forallb py_isspace ws = true -> lstrip (ws ++ Y) = lstrip Y.
Proof.
  induction ws as [|c r IH]; [reflexivity|].
  cbn. intros H. apply andb_prop in H. destruct H as [Hc Hr].
  rewrite Hc. apply IH, Hr.
Qed.

Lemma lstrip_cons (c : codepoint) (r : pystr) :
  py_isspace c = false -> lstrip (c :: r) = c :: r.
Proof. intros H. cbn. rewrite H. reflexivity. Qed.

Lemma forallb_rev {A} (f : A -> bool) (l : list A) :
  forallb f (rev l) = forallb f l.
Proof.
  induction l as [|a l IH]; [reflexivity|].
  cbn. rewrite forallb_app, IH. cbn. rewrite andb_true_r. apply andb_comm.
Qed.

Lemma rstrip_app (pre rest : pystr) :
  ends_nonspace pre ->
  forallb py_isspace rest = true ->
  rstrip (pre ++ rest) = pre.
Proof.
  intros [Hne Hl] Hr. unfold rstrip.
  rewrite rev_app_distr, lstrip_app by (rewrite forallb_rev; exact Hr).
  rewrite (app_removelast_last 0 Hne) at 1.
  rewrite rev_app_distr. cbn [rev app]. rewrite lstrip_cons by exact Hl.
  change (last pre 0 :: rev (removelast pre))
    with (rev [last pre 0] ++ rev (removelast pre)).
  rewrite <- rev_app_distr, rev_involutive.
  symmetry. apply app_removelast_last, Hne.
Qed.




(** ** Number literals do not depend on what follows them *)

















Lemma head_all_weaken (P Q : codepoint -> bool) (a : pystr) :
  (forall c, P c = true -> Q c = true) ->
  head_all P a = true -> head_all Q a = true.
Proof. destruct a; [reflexivity|]. intros H. apply H. Qed.

(** ** String literals do not depend on what follows them *)





(** ** Keywords and numbers *)

Lemma startswith_split (p s : pystr) :
  startswith p s = true -> s = p ++ skipn (List.length p) s.
Proof.
  revert s. induction p as [|a p IH]; intros s H; [reflexivity|].
  destruct s as [|b s]; [discriminate|]. cbn in H.
  apply andb_prop in H. destruct H as [Hab Hp]. apply N.eqb_eq in Hab. subst b.
  cbn. f_equal. apply IH, Hp.
Qed.

Lemma startswith_self (p X : pystr) : startswith p (p ++ X) = true.
Proof.
  induction p as [|a p IH]; [reflexivity|]. cbn. rewrite N.eqb_refl. exact IH.
Qed.




(** ** Values do not depend on what follows them *)





Section Replace.
Variable consts : bool.

End Replace.
(** ** Trimming a valid document *)





(** ** The parsing helper on valid JSON *)


(** ** The effect monad *)

Lemma bind_Ok {A B} (m : M A) (k : A -> M B) env tr a :
  m env = (tr, Ok a) ->
  bind m k env = (tr ++ trace_of (k a env), outcome_of (k a env)).
Proof.
  intros E. unfold bind. rewrite E. destruct (k a env). reflexivity.
Qed.

Lemma bind_Raise {A B} (m : M A) (k : A -> M B) env tr e :
  m env = (tr, Raise e) -> bind m k env = (tr, Raise e).
Proof. intros E. unfold bind. rewrite E. reflexivity. Qed.

Lemma try_except_Ok {A} (m : M A) h env tr a :
  m env = (tr, Ok a) -> try_except m h env = (tr, Ok a).
Proof. intros E. unfold try_except. rewrite E. reflexivity. Qed.

Lemma try_except_caught {A} (m : M A) h env tr e (hd : M A) :
  m env = (tr, Raise e) -> h e = Some hd ->
  try_except m h env = (tr ++ trace_of (hd env), outcome_of (hd env)).
Proof.
  intros E Eh. unfold try_except. rewrite E, Eh. destruct (hd env). reflexivity.
Qed.

Lemma surjective_outcome {A} (o : list event * result A) :
  o = (trace_of o, outcome_of o).
Proof. destruct o. reflexivity. Qed.

(** ** The credential gate *)

Lemma pystr_eqb_eq (a b : pystr) : pystr_eqb a b = true <-> a = b.
Proof.
  unfold pystr_eqb. destruct (list_eq_dec N.eq_dec a b); split; congruence.
Qed.

Lemma credential_unusable_iff (env : Environment) :
  credential_unusable (getenv env (u "GROQ_API_KEY")) = true
  <-> credential_missing env.
Proof.
  unfold credential_missing.
  destruct (getenv env (u "GROQ_API_KEY")) as [[|c k]|]; cbn [credential_unusable].
  - split; auto.
  - rewrite pystr_eqb_eq. split.
    + intros ->. auto.
    + intros [H|[H|H]]; congruence.
  - split; auto.
Qed.

Lemma get_client_missing (env : Environment) :
  credential_missing env ->
  get_client env = ([], Raise (ValueError CONFIG_ERROR)).
Proof.
  intros H. apply credential_unusable_iff in H.
  unfold get_client, bind, os_getenv. rewrite H. reflexivity.
Qed.

Lemma get_client_usable (env : Environment) :
  ~ credential_missing env ->
  exists key,
    getenv env (u "GROQ_API_KEY") = Some key
    /\ get_client env = ([], Ok {| api_key := key |}).
Proof.
  intros H. rewrite <- credential_unusable_iff in H.
  apply not_true_is_false in H.
  unfold get_client, bind, os_getenv. rewrite H.
  destruct (getenv env (u "GROQ_API_KEY")) as [key|]; [|discriminate].
  exists key. split; reflexivity.
Qed.

(** Every operation starts by taking the client: without a credential it
    stops there. *)
Lemma gated_missing {A} (k : Groq -> M A) (env : Environment) :
  credential_missing env ->
  (client <- get_client ;; k client) env = ([], Raise (ValueError CONFIG_ERROR)).
Proof. intros H. apply bind_Raise, get_client_missing, H. Qed.

Lemma http_500_of_raise {A} (body : M A) (what : pystr) env tr e :
  body env = (tr, Raise e) ->
  try_except body (http_500 what) env
  = (tr ++ [Log MAIN_LOGGER ERROR (what ++ exn_str e)],
     Raise (HTTPException 500 (exn_str e))).
Proof.
  intros E. unfold try_except, http_500. rewrite E. reflexivity.
Qed.

Lemma bind_ret_Ok {A B} (m : M A) (f : A -> B) env tr a :
  m env = (tr, Ok a) -> (x <- m ;; ret (f x)) env = (tr, Ok (f a)).
Proof.
  intros E. rewrite (bind_Ok _ _ _ _ _ E). cbn. rewrite app_nil_r. reflexivity.
Qed.

(** ** Prompt construction never fails *)

Section PromptTotal.
Variable isprintable : codepoint -> bool.

Lemma slot_nth (subs : list SubmissionModel.t) (i : nat) :
  slot isprintable subs i
  = Ok (match nth_error subs i with
        | Some s => fmt isprintable s
        | None => NOT_AVAILABLE
        end).
Proof.
  unfold slot, py_index.
  destruct (Nat.ltb_spec i (List.length subs)) as [Hlt|Hge].
  - destruct (nth_error subs i) eqn:E; [reflexivity|].
    apply nth_error_None in E. lia.
  - apply nth_error_None in Hge. rewrite Hge. reflexivity.
Qed.

Lemma facility_of_head (subs : list SubmissionModel.t) :
  facility_of subs
  = Ok (match subs with
        | s :: _ => SubmissionModel.facilityId s
        | [] => u "UNKNOWN"
        end).
Proof. destruct subs; reflexivity. Qed.

Lemma collusion_prompt_Ok (req : CollusionRequest.t) :
  let subs := CollusionRequest.submissions req in
  let slot_text i :=
    match nth_error subs i with
    | Some s => fmt isprintable s
    | None => NOT_AVAILABLE
    end in
  collusion_prompt isprintable req
  = Ok (collusion_template
          (match subs with
           | s :: _ => SubmissionModel.facilityId s
           | [] => u "UNKNOWN"
           end)
          (slot_text 0%nat) (slot_text 1%nat) (slot_text 2%nat)).
Proof.
  intros subs slot_text. unfold collusion_prompt. fold subs.
  rewrite facility_of_head, !slot_nth. reflexivity.
Qed.
End PromptTotal.

(** ** The round trip of an operation *)

Lemma endpoint_config_error {A B} (body : M A) (k : A -> M B)
      (what : pystr) (env : Environment) :
  body env = ([], Raise (ValueError CONFIG_ERROR)) ->
  outcome_of (try_except (x <- body ;; k x) (http_500 what) env)
  = Raise (HTTPException 500 CONFIG_ERROR)
  /\ network_calls (trace_of (try_except (x <- body ;; k x) (http_500 what) env))
     = [].
Proof.
  intros E.
  rewrite (http_500_of_raise _ what env [] _ (bind_Raise _ _ _ _ _ E)).
  split; reflexivity.
Qed.

Lemma round_trip_eq {A} (env : Environment) (key : pystr)
      (text : option pystr) (m1 m2 : pystr) (rq : chat_request)
      (k : option pystr -> M A) :
  get_client env = ([], Ok {| api_key := key |}) ->
  answers env text ->
  (client <- get_client ;;
   logger_info LOGGER m1 ;;
   response <- create client rq ;;
   logger_info LOGGER m2 ;;
   text <- lift (first_content response) ;;
   k text) env
  = (Log LOGGER INFO m1
       :: NetworkCall {| api_key := key |} rq
       :: Log LOGGER INFO m2 :: trace_of (k text env),
     outcome_of (k text env)).
Proof.
  intros Hg Ha.
  destruct (Ha {| api_key := key |} rq) as (rest & Hr).
  unfold bind. rewrite Hg. unfold logger_info, create, lift. rewrite Hr.
  cbn [first_content py_index nth_error choices choice_content].
  destruct (k text env) as [tr r]. reflexivity.
Qed.


(** ** The parsing helper *)

Lemma safe_json_parse_rejected (t : pystr) (env : Environment) :
  json_loads (cleaned t) = None ->
  outcome_of (safe_json_parse (Some t) env) = Ok JNull.
Proof.
  intros E. unfold safe_json_parse. destruct t as [|c r]; [reflexivity|].
  rewrite E. reflexivity.
Qed.

Lemma safe_json_parse_decoded (t : pystr) (v : json) (env : Environment) :
  t <> [] ->
  json_loads (cleaned t) = Some v ->
  safe_json_parse (Some t) env = ([], Ok v).
Proof.
  intros Hne E. unfold safe_json_parse. destruct t as [|c r]; [contradiction|].
  rewrite E. reflexivity.
Qed.

Lemma safe_json_parse_outcome (t : pystr) (env : Environment) :
  outcome_of (safe_json_parse (Some t) env)
  = Ok (match json_loads (cleaned t) with Some v => v | None => JNull end).
Proof.
  destruct (json_loads (cleaned t)) as [v|] eqn:E.
  - destruct t as [|c r]; [discriminate E|].
    rewrite (safe_json_parse_decoded (c :: r) v env); [reflexivity| discriminate | exact E].
  - apply safe_json_parse_rejected, E.
Qed.

(* ================================================================== *)
(** * The claims *)

(** ** C1: what the parsing helper signals *)




(** ** C2: code fences around the text *)

(** C2. For every text [t] without a backtick, JSON or not, the helper
    returns for [t] wrapped in a json code fence what it returns for
    [t] itself; the fenced object with the one member a = 1 and the bare
    one both give that object. *)
Theorem fence_wrapping_transparent (t : pystr) (env : Environment) :
  ~ In BACKTICK t ->
  outcome_of (safe_json_parse (Some (u "```json
" ++ t ++ u "
```")) env)
  = outcome_of (safe_json_parse (Some t) env)
  /\ outcome_of (safe_json_parse (Some (u "```json
{" ++ q "a" ++ u ":1}
```")) env) = Ok (JObj [ (u "a", JInt 1) ])
  /\ outcome_of (safe_json_parse (Some (u "{" ++ q "a" ++ u ":1}")) env)
     = Ok (JObj [ (u "a", JInt 1) ]).
Proof.
  intros Hn. split; [|split].
  - rewrite !safe_json_parse_outcome, cleaned_fenced, cleaned_bare by exact Hn.
    reflexivity.
  - rewrite safe_json_parse_outcome. vm_compute. reflexivity.
  - rewrite safe_json_parse_outcome. vm_compute. reflexivity.
Qed.

Lemma fence_wrapping_transparent_witness :
  outcome_of (safe_json_parse (Some (u "```json
" ++ (u "[1, 2.5, null]") ++ u "
```")) (sample_env None None))
  = outcome_of (safe_json_parse (Some (u "[1, 2.5, null]")) (sample_env None None)).
Proof.
  apply (fence_wrapping_transparent (u "[1, 2.5, null]") (sample_env None None)).
  intros H. vm_compute in H. intuition discriminate.
Defined.

(** ** C3: a response that cannot be parsed *)



Lemma endpoint_value_error {A B} (body : M A) (k : A -> M B) (what : pystr)
      (env : Environment) (msg : pystr) :
  outcome_of (body env) = Raise (ValueError msg) ->
  outcome_of (try_except (x <- body ;; k x) (http_500 what) env)
  = Raise (HTTPException 500 msg).
Proof.
  intros E.
  assert (Hb : body env = (trace_of (body env), Raise (ValueError msg)))
    by (rewrite <- E; apply surjective_outcome).
  rewrite (http_500_of_raise _ what env _ _ (bind_Raise _ _ _ _ _ Hb)).
  reflexivity.
Qed.



(** Two more runs of the vision operation.  A response that decodes to
    a falsy value, here the empty object, is reported like an
    unparseable one; a response without content ([None]) makes the
    slice of the error message fail with a [TypeError]. *)
Example vision_on_empty_object :
  outcome_of (run_vision_analysis sample_vision
                (sample_env (Some (u "gsk_live")) (Some (u "{}"))))
  = Raise (ValueError (u "Could not parse vision response: {}")).
Proof.
  assert (Hc : ~ credential_missing (sample_env (Some (u "gsk_live")) (Some (u "{}"))))
    by (intros [H|[H|H]]; vm_compute in H; discriminate H).
  destruct (get_client_usable _ Hc) as (key & _ & Hg).
  unfold run_vision_analysis. cbv zeta.
  rewrite (round_trip_eq _ key (Some (u "{}")) _ _ _ _ Hg)
    by (intros client req; exists []; reflexivity).
  vm_compute. reflexivity.
Qed.

Example vision_on_missing_content :
  outcome_of (run_vision_analysis sample_vision
                (sample_env (Some (u "gsk_live")) None))
  = Raise (TypeError (u "'NoneType' object is not subscriptable")).
Proof.
  assert (Hc : ~ credential_missing (sample_env (Some (u "gsk_live")) None))
    by (intros [H|[H|H]]; vm_compute in H; discriminate H).
  destruct (get_client_usable _ Hc) as (key & _ & Hg).
  unfold run_vision_analysis. cbv zeta.
  rewrite (round_trip_eq _ key None _ _ _ _ Hg)
    by (intros client req; exists []; reflexivity).
  vm_compute. reflexivity.
Qed.

Section Unparseable.
Variable isprintable : codepoint -> bool.
Variable float : Type.
Variable float_repr : float -> pystr.

End Unparseable.


(** ** C4, C5: the credential gate *)

Section CredentialGate.
Variable isprintable : codepoint -> bool.
Variable float : Type.
Variable float_repr : float -> pystr.

(** C4. When the credential is absent (unset or empty) or is the
    placeholder, each of the four model operations raises the
    configuration error with an empty trace: no outbound call (and no
    log line) precedes the failure.  Its endpoint then logs the
    failure and answers with status 500 carrying the same message,
    still without any outbound call. *)
Theorem missing_credential_fails_before_call (env : Environment) :
  credential_missing env ->
  (forall req,
      run_vision_analysis req env = ([], Raise (ValueError CONFIG_ERROR))
      /\ outcome_of (vision_endpoint req env)
         = Raise (HTTPException 500 CONFIG_ERROR)
      /\ network_calls (trace_of (vision_endpoint req env)) = [])
  /\ (forall req,
      run_collusion_check isprintable req env
      = ([], Raise (ValueError CONFIG_ERROR))
      /\ outcome_of (collusion_endpoint isprintable req env)
         = Raise (HTTPException 500 CONFIG_ERROR)
      /\ network_calls (trace_of (collusion_endpoint isprintable req env)) = [])
  /\ (forall req,
      generate_health_narrative float req env
      = ([], Raise (ValueError CONFIG_ERROR))
      /\ outcome_of (health_narrative_endpoint float req env)
         = Raise (HTTPException 500 CONFIG_ERROR)
      /\ network_calls (trace_of (health_narrative_endpoint float req env)) = [])
  /\ (forall req,
      generate_investor_signal float float_repr req env
      = ([], Raise (ValueError CONFIG_ERROR))
      /\ outcome_of (investor_signal_endpoint float float_repr req env)
         = Raise (HTTPException 500 CONFIG_ERROR)
      /\ network_calls
           (trace_of (investor_signal_endpoint float float_repr req env)) = []).
Proof.
  intros Hm.
  assert (Hv : forall req,
             run_vision_analysis req env = ([], Raise (ValueError CONFIG_ERROR)))
    by (intros req; apply gated_missing, Hm).
  assert (Hc : forall req,
             run_collusion_check isprintable req env
             = ([], Raise (ValueError CONFIG_ERROR))).
  { intros req. unfold run_collusion_check.
    erewrite bind_Ok
      by (unfold lift; rewrite collusion_prompt_Ok; reflexivity).
    rewrite gated_missing by exact Hm. reflexivity. }
  assert (Hn : forall req,
             generate_health_narrative float req env
             = ([], Raise (ValueError CONFIG_ERROR)))
    by (intros req; apply gated_missing, Hm).
  assert (Hi : forall req,
             generate_investor_signal float float_repr req env
             = ([], Raise (ValueError CONFIG_ERROR)))
    by (intros req; apply gated_missing, Hm).
  split; [|split; [|split]]; intros req.
  - split; [exact (Hv req)|].
    exact (endpoint_config_error _ _ _ env (Hv req)).
  - split; [exact (Hc req)|].
    exact (endpoint_config_error _ _ _ env (Hc req)).
  - split; [exact (Hn req)|].
    exact (endpoint_config_error _ _ _ env (Hn req)).
  - split; [exact (Hi req)|].
    exact (endpoint_config_error _ _ _ env (Hi req)).
Qed.
End CredentialGate.

Lemma missing_credential_fails_before_call_witness :
  credential_missing (sample_env (Some PLACEHOLDER_API_KEY) (Some (u "{}")))
  /\ run_vision_analysis sample_vision
       (sample_env (Some PLACEHOLDER_API_KEY) (Some (u "{}")))
     = ([], Raise (ValueError CONFIG_ERROR)).
Proof.
  assert (H : credential_missing
                (sample_env (Some PLACEHOLDER_API_KEY) (Some (u "{}"))))
    by (right; right; reflexivity).
  split; [exact H|].
  apply (missing_credential_fails_before_call
           all_printable Z sample_float_repr _ H).
Defined.

(** C5. [health] has an empty trace, so performs no network call, and
    always returns: the status is "ok", with the model identifier,
    exactly when the credential is neither absent (unset or empty) nor
    the placeholder; otherwise the status is "error" with the message of
    the configuration error as detail. *)
Theorem health_reports_credential (env : Environment) :
  trace_of (health env) = []
  /\ (~ credential_missing env <->
      outcome_of (health env)
      = Ok (JObj [ (u "status", JStr (u "ok")); (u "model", JStr VISION_MODEL) ]))
  /\ (credential_missing env ->
      outcome_of (health env)
      = Ok (JObj [ (u "status", JStr (u "error"));
                   (u "detail", JStr CONFIG_ERROR) ])).
Proof.
  destruct (credential_unusable (getenv env (u "GROQ_API_KEY"))) eqn:E.
  - assert (Hm : credential_missing env) by (apply credential_unusable_iff, E).
    assert (Hh : health env
                 = ([], Ok (JObj [ (u "status", JStr (u "error"));
                                   (u "detail", JStr CONFIG_ERROR) ]))).
    { unfold health.
      erewrite try_except_caught
        by (first [ apply gated_missing, Hm | reflexivity ]).
      reflexivity. }
    rewrite Hh. split; [reflexivity|]. split; [|intros _; reflexivity].
    split; [intros Hn; contradiction|].
    intros Hok. unfold outcome_of, snd in Hok. exfalso.
    vm_compute in Hok. discriminate Hok.
  - assert (Hn : ~ credential_missing env).
    { intros Hm. apply credential_unusable_iff in Hm. congruence. }
    destruct (get_client_usable env Hn) as (key & _ & Hg).
    assert (Hh : health env
                 = ([], Ok (JObj [ (u "status", JStr (u "ok"));
                                   (u "model", JStr VISION_MODEL) ]))).
    { unfold health. erewrite try_except_Ok; [reflexivity|].
      rewrite (bind_Ok _ _ _ _ _ Hg). reflexivity. }
    rewrite Hh. split; [reflexivity|]. split; [|intros Hm; contradiction].
    split; [intros _; reflexivity | intros _; exact Hn].
Qed.

Lemma health_reports_credential_witness :
  credential_missing (sample_env None None)
  /\ outcome_of (health (sample_env None None))
     = Ok (JObj [ (u "status", JStr (u "error"));
                  (u "detail", JStr CONFIG_ERROR) ]).
Proof.
  assert (H : credential_missing (sample_env None None))
    by (left; reflexivity).
  split; [exact H|].
  apply (proj2 (proj2 (health_reports_credential (sample_env None None))) H).
Defined.

(** ** C6, C8, C10: the collusion prompt *)

Lemma nth_error_firstn_lt {A} (l : list A) (n i : nat) :
  (i < n)%nat -> nth_error (firstn n l) i = nth_error l i.
Proof.
  revert n i. induction l as [|x l IH]; intros n i Hlt.
  - rewrite firstn_nil. reflexivity.
  - destruct n as [|n]; [lia|]. destruct i as [|i]; [reflexivity|].
    cbn. apply IH. lia.
Qed.

Lemma template_reassoc {A} (h f c hl n s0 nn pl s1 al s2 p rest : list A) :
  h ++ f ++ (c ++ hl ++ n) ++ s0 ++ (nn ++ pl ++ n) ++ s1
    ++ (nn ++ al ++ n) ++ s2 ++ (nn ++ p) ++ rest
  = (h ++ f ++ c) ++ hl ++ n ++ s0 ++ nn ++ pl ++ n ++ s1
      ++ nn ++ al ++ n ++ s2 ++ nn ++ p ++ rest.
Proof. rewrite <- !app_assoc. reflexivity. Qed.

Section CollusionPrompt.
Variable isprintable : codepoint -> bool.

Lemma rendered_slot_firstn (subs : list SubmissionModel.t) (i : nat) :
  (i < 3)%nat ->
  rendered_slot isprintable (firstn 3 subs) i = rendered_slot isprintable subs i.
Proof.
  intros Hlt. unfold rendered_slot. rewrite nth_error_firstn_lt by exact Hlt.
  reflexivity.
Qed.

Lemma collusion_prompt_slots (req : CollusionRequest.t) :
  collusion_prompt isprintable req
  = Ok (collusion_template
          (match CollusionRequest.submissions req with
           | s :: _ => SubmissionModel.facilityId s
           | [] => u "UNKNOWN"
           end)
          (rendered_slot isprintable (CollusionRequest.submissions req) 0)
          (rendered_slot isprintable (CollusionRequest.submissions req) 1)
          (rendered_slot isprintable (CollusionRequest.submissions req) 2)).
Proof. apply collusion_prompt_Ok. Qed.

(** The template shows the three labels in order, each followed on the
    next line by the text of its slot. *)
Lemma collusion_template_shape (facility s0 s1 s2 : pystr) :
  exists pre post,
    collusion_template facility s0 s1 s2
    = pre ++ HOUSEHOLD_LABEL ++ [10] ++ s0 ++ [10; 10]
          ++ PEER_LABEL ++ [10] ++ s1 ++ [10; 10]
          ++ AUDITOR_LABEL ++ [10] ++ s2 ++ [10; 10] ++ post.
Proof.
  eexists. eexists. unfold collusion_template.
  match goal with
  | |- ?h ++ facility ++ u ?l1 ++ s0 ++ u ?l2 ++ s1 ++ u ?l3 ++ s2
         ++ u ?l4 ++ _ = _ =>
      assert (E1 : u l1 = [58; 10; 10] ++ HOUSEHOLD_LABEL ++ [10])
        by (vm_compute; reflexivity);
      assert (E2 : u l2 = [10; 10] ++ PEER_LABEL ++ [10])
        by (vm_compute; reflexivity);
      assert (E3 : u l3 = [10; 10] ++ AUDITOR_LABEL ++ [10])
        by (vm_compute; reflexivity);
      assert (E4 : u l4 = [10; 10] ++ skipn 2 (u l4))
        by (vm_compute; reflexivity)
  end.
  rewrite E1, E2, E3, E4.
  apply template_reassoc.
Qed.
End CollusionPrompt.

Section CollusionClaims.
Variable isprintable : codepoint -> bool.

(** C6. For a request with at most two submissions the prompt is
    built, and it shows the household, peer and auditor labels in
    order, each followed by its slot; every slot beyond the supplied
    submissions shows the fixed placeholder N/A, and in particular the
    auditor slot always does. *)
Theorem missing_slots_render_placeholder (req : CollusionRequest.t) :
  let subs := CollusionRequest.submissions req in
  (List.length subs <= 2)%nat ->
  exists prompt pre post,
    collusion_prompt isprintable req = Ok prompt
    /\ prompt
       = pre ++ HOUSEHOLD_LABEL ++ [10] ++ rendered_slot isprintable subs 0
             ++ [10; 10]
             ++ PEER_LABEL ++ [10] ++ rendered_slot isprintable subs 1
             ++ [10; 10]
             ++ AUDITOR_LABEL ++ [10] ++ rendered_slot isprintable subs 2
             ++ [10; 10] ++ post
    /\ (forall i, (List.length subs <= i)%nat ->
                  rendered_slot isprintable subs i = u "N/A")
    /\ rendered_slot isprintable subs 2 = u "N/A".
Proof.
  intros subs Hlen.
  assert (Hna : forall i, (List.length subs <= i)%nat ->
                          rendered_slot isprintable subs i = u "N/A").
  { intros i Hi. unfold rendered_slot.
    rewrite (proj2 (nth_error_None subs i) Hi). reflexivity. }
  destruct (collusion_template_shape
              (match subs with
               | s :: _ => SubmissionModel.facilityId s
               | [] => u "UNKNOWN"
               end)
              (rendered_slot isprintable subs 0)
              (rendered_slot isprintable subs 1)
              (rendered_slot isprintable subs 2)) as (pre & post & E).
  eexists. exists pre, post.
  split; [apply collusion_prompt_slots|].
  split; [exact E|].
  split; [exact Hna | exact (Hna 2%nat Hlen)].
Qed.


(** C10. A request with any number of submissions is accepted: the
    prompt is always built.  Two requests whose first three
    submissions are equal yield the same prompt, and so the same run
    of the operation and of its endpoint in any environment. *)
Theorem submissions_beyond_third_ignored (r1 r2 : CollusionRequest.t) :
  firstn 3 (CollusionRequest.submissions r1)
  = firstn 3 (CollusionRequest.submissions r2) ->
  (exists prompt,
      collusion_prompt isprintable r1 = Ok prompt
      /\ collusion_prompt isprintable r2 = Ok prompt)
  /\ (forall env,
         run_collusion_check isprintable r1 env
         = run_collusion_check isprintable r2 env)
  /\ (forall env,
         collusion_endpoint isprintable r1 env
         = collusion_endpoint isprintable r2 env).
Proof.
  intros H3.
  assert (Hs : forall i, (i < 3)%nat ->
               rendered_slot isprintable (CollusionRequest.submissions r1) i
               = rendered_slot isprintable (CollusionRequest.submissions r2) i).
  { intros i Hi. rewrite <- (rendered_slot_firstn isprintable _ i Hi), H3.
    apply rendered_slot_firstn, Hi. }
  assert (Hf : match CollusionRequest.submissions r1 with
               | s :: _ => SubmissionModel.facilityId s
               | [] => u "UNKNOWN"
               end
               = match CollusionRequest.submissions r2 with
                 | s :: _ => SubmissionModel.facilityId s
                 | [] => u "UNKNOWN"
                 end).
  { destruct (CollusionRequest.submissions r1) as [|a1 l1],
             (CollusionRequest.submissions r2) as [|a2 l2];
      cbn in H3; congruence. }
  assert (E : collusion_prompt isprintable r1 = collusion_prompt isprintable r2).
  { rewrite !collusion_prompt_slots, Hf, !Hs by lia. reflexivity. }
  assert (G : run_collusion_check isprintable r1
              = run_collusion_check isprintable r2).
  { unfold run_collusion_check. rewrite E. reflexivity. }
  split; [|split].
  - eexists. split; [apply collusion_prompt_slots|].
    rewrite <- E. apply collusion_prompt_slots.
  - intros env. rewrite G. reflexivity.
  - intros env. unfold collusion_endpoint. rewrite G. reflexivity.
Qed.
End CollusionClaims.

Lemma missing_slots_render_placeholder_witness :
  exists prompt pre post,
    collusion_prompt all_printable (sample_collusion 1) = Ok prompt
    /\ prompt
       = pre ++ HOUSEHOLD_LABEL ++ [10]
             ++ rendered_slot all_printable
                  (CollusionRequest.submissions (sample_collusion 1)) 0
             ++ [10; 10]
             ++ PEER_LABEL ++ [10]
             ++ rendered_slot all_printable
                  (CollusionRequest.submissions (sample_collusion 1)) 1
             ++ [10; 10]
             ++ AUDITOR_LABEL ++ [10]
             ++ rendered_slot all_printable
                  (CollusionRequest.submissions (sample_collusion 1)) 2
             ++ [10; 10] ++ post
    /\ (forall i,
           (List.length (CollusionRequest.submissions (sample_collusion 1)) <= i)%nat ->
           rendered_slot all_printable
             (CollusionRequest.submissions (sample_collusion 1)) i = u "N/A")
    /\ rendered_slot all_printable
         (CollusionRequest.submissions (sample_collusion 1)) 2 = u "N/A".
Proof.
  apply (missing_slots_render_placeholder all_printable (sample_collusion 1)).
  cbn. lia.
Defined.


Lemma submissions_beyond_third_ignored_witness :
  firstn 3 (CollusionRequest.submissions (sample_collusion 5))
  = firstn 3 (CollusionRequest.submissions (sample_collusion 3))
  /\ forall env,
      run_collusion_check all_printable (sample_collusion 5) env
      = run_collusion_check all_printable (sample_collusion 3) env.
Proof.
  assert (H : firstn 3 (CollusionRequest.submissions (sample_collusion 5))
              = firstn 3 (CollusionRequest.submissions (sample_collusion 3)))
    by reflexivity.
  split; [exact H|].
  apply (proj1 (proj2 (submissions_beyond_third_ignored
                         all_printable (sample_collusion 5) (sample_collusion 3) H))).
Defined.

(** ** C7, C9: the health narrative *)

Section Narrative.
Variable float : Type.

(** C7. With a usable credential and a provider that answers [text],
    the narrative operation makes its one call and returns [text]
    itself, whatever it contains, and the empty string when the
    provider returns no text ([None]); nothing is parsed, and no parse
    failure is logged or raised.  The endpoint wraps that string under
    the key "narrative". *)
Theorem narrative_returns_text_verbatim
    (req : HealthNarrativeRequest.t float) (env : Environment)
    (text : option pystr) :
  ~ credential_missing env ->
  answers env text ->
  let narrative := match text with Some t => t | None => [] end in
  exists key,
    generate_health_narrative float req env
    = ([ Log LOGGER INFO (u "📤 [Mode 3] Health narrative → " ++ TEXT_MODEL);
         NetworkCall {| api_key := key |}
           {| model := TEXT_MODEL;
              temperature := 7 # 10;
              messages := [ SYSTEM_MESSAGE;
                            user_message (narrative_prompt float req) ] |};
         Log LOGGER INFO (u "✅ [Mode 3] Response received") ],
       Ok narrative)
    /\ outcome_of (health_narrative_endpoint float req env)
       = Ok (JObj [ (u "narrative", JStr narrative) ]).
Proof.
  intros Hc Ha narrative.
  destruct (get_client_usable env Hc) as (key & _ & Hg).
  exists key.
  assert (E : generate_health_narrative float req env
              = ([ Log LOGGER INFO
                     (u "📤 [Mode 3] Health narrative → " ++ TEXT_MODEL);
                   NetworkCall {| api_key := key |}
                     {| model := TEXT_MODEL;
                        temperature := 7 # 10;
                        messages := [ SYSTEM_MESSAGE;
                                      user_message (narrative_prompt float req) ] |};
                   Log LOGGER INFO (u "✅ [Mode 3] Response received") ],
                 Ok narrative)).
  { unfold generate_health_narrative. cbv zeta.
    rewrite (round_trip_eq env key text _ _ _ _ Hg Ha).
    subst narrative. destruct text as [[|c r]|]; reflexivity. }
  split; [exact E|].
  unfold health_narrative_endpoint.
  erewrite try_except_Ok
    by (apply (bind_ret_Ok _ (fun n => JObj [ (u "narrative", JStr n) ])), E).
  reflexivity.
Qed.

(** C9. Two narrative requests that agree on the village name, the
    population and the number of prevented cases yield the same
    prompt, character for character, and so the same run of the
    operation and of its endpoint in any environment: [avg_score] is
    never read. *)
Theorem narrative_ignores_avg_score
    (r1 r2 : HealthNarrativeRequest.t float) :
  HealthNarrativeRequest.village_name r1 = HealthNarrativeRequest.village_name r2 ->
  HealthNarrativeRequest.population r1 = HealthNarrativeRequest.population r2 ->
  HealthNarrativeRequest.cases_prevented r1
  = HealthNarrativeRequest.cases_prevented r2 ->
  narrative_prompt float r1 = narrative_prompt float r2
  /\ (forall env,
         generate_health_narrative float r1 env
         = generate_health_narrative float r2 env)
  /\ (forall env,
         health_narrative_endpoint float r1 env
         = health_narrative_endpoint float r2 env).
Proof.
  intros Hv Hp Hcp.
  assert (E : narrative_prompt float r1 = narrative_prompt float r2).
  { unfold narrative_prompt. rewrite Hv, Hp, Hcp. reflexivity. }
  assert (G : generate_health_narrative float r1
              = generate_health_narrative float r2).
  { unfold generate_health_narrative. cbv zeta. rewrite E. reflexivity. }
  split; [exact E|]. split.
  - intros env. rewrite G. reflexivity.
  - intros env. unfold health_narrative_endpoint. rewrite G. reflexivity.
Qed.
End Narrative.

Lemma narrative_returns_text_verbatim_witness :
  exists key,
    generate_health_narrative Z (sample_narrative 71)
      (sample_env (Some (u "gsk_live")) None)
    = ([ Log LOGGER INFO (u "📤 [Mode 3] Health narrative → " ++ TEXT_MODEL);
         NetworkCall {| api_key := key |}
           {| model := TEXT_MODEL;
              temperature := 7 # 10;
              messages := [ SYSTEM_MESSAGE;
                            user_message
                              (narrative_prompt Z (sample_narrative 71)) ] |};
         Log LOGGER INFO (u "✅ [Mode 3] Response received") ],
       Ok [])
    /\ outcome_of (health_narrative_endpoint Z (sample_narrative 71)
                     (sample_env (Some (u "gsk_live")) None))
       = Ok (JObj [ (u "narrative", JStr []) ]).
Proof.
  apply (narrative_returns_text_verbatim Z (sample_narrative 71)
           (sample_env (Some (u "gsk_live")) None) None).
  - intros [H|[H|H]]; vm_compute in H; discriminate H.
  - intros client req. exists []. reflexivity.
Defined.

Lemma narrative_ignores_avg_score_witness :
  narrative_prompt Z (sample_narrative 12) = narrative_prompt Z (sample_narrative 98)
  /\ (forall env,
         generate_health_narrative Z (sample_narrative 12) env
         = generate_health_narrative Z (sample_narrative 98) env)
  /\ (forall env,
         health_narrative_endpoint Z (sample_narrative 12) env
         = health_narrative_endpoint Z (sample_narrative 98) env).
Proof.
  apply (narrative_ignores_avg_score Z (sample_narrative 12) (sample_narrative 98));
    reflexivity.
Defined.

(* ================================================================== *)
(** * Further properties *)

(** ** One call to the provider, whatever it answers *)


Lemma parse_or_raise_run (could_not : pystr) (text : option pystr)
      (env : Environment) :
  parse_or_raise could_not text env
  = match text with
    | None =>
        ([], Raise (TypeError (u "'NoneType' object is not subscriptable")))
    | Some t =>
        match json_loads (cleaned t) with
        | Some v =>
            ([], if truthy v then Ok v
                 else Raise (ValueError (could_not ++ slice_to 300 t)))
        | None =>
            (match t with
             | [] => []
             | _ => [Log LOGGER ERROR (u "Failed to parse JSON: " ++ slice_to 200 t)]
             end,
             Raise (ValueError (could_not ++ slice_to 300 t)))
        end
    end.
Proof.
  destruct text as [t|]; [|reflexivity].
  destruct (json_loads (cleaned t)) as [v|] eqn:E.
  - destruct t as [|c r]; [discriminate E|].
    unfold parse_or_raise.
    rewrite (bind_Ok _ _ _ _ _ (safe_json_parse_decoded (c :: r) v env
                                  ltac:(discriminate) E)).
    destruct (truthy v); reflexivity.
  - unfold parse_or_raise, safe_json_parse. destruct t as [|c r]; [reflexivity|].
    rewrite E. reflexivity.
Qed.


(** The run of an operation once the client is there, by the answer of
    the provider. *)
Lemma round_trip_run {A} (env : Environment) (key : pystr)
      (m1 m2 : pystr) (rq : chat_request) (k : option pystr -> M A) :
  get_client env = ([], Ok {| api_key := key |}) ->
  (client <- get_client ;;
   logger_info LOGGER m1 ;;
   response <- create client rq ;;
   logger_info LOGGER m2 ;;
   text <- lift (first_content response) ;;
   k text) env
  = match chat_completions env {| api_key := key |} rq with
    | Raise e =>
        ([Log LOGGER INFO m1; NetworkCall {| api_key := key |} rq], Raise e)
    | Ok response =>
        match first_content response with
        | Raise e =>
            ([Log LOGGER INFO m1; NetworkCall {| api_key := key |} rq;
              Log LOGGER INFO m2], Raise e)
        | Ok text =>
            (Log LOGGER INFO m1 :: NetworkCall {| api_key := key |} rq
               :: Log LOGGER INFO m2 :: trace_of (k text env),
             outcome_of (k text env))
        end
    end.
Proof.
  intros Hg. unfold bind. rewrite Hg. unfold logger_info, create, lift.
  destruct (chat_completions env {| api_key := key |} rq) as [resp|e];
    [|reflexivity].
  destruct (first_content resp) as [text|e]; [|reflexivity].
  destruct (k text env) as [tr r]. reflexivity.
Qed.


Lemma round_trip_fails {A} (env : Environment) (key : pystr) (e : exn)
      (m1 m2 : pystr) (rq : chat_request) (k : option pystr -> M A) :
  get_client env = ([], Ok {| api_key := key |}) ->
  provider_fails env e ->
  outcome_of ((client <- get_client ;;
               logger_info LOGGER m1 ;;
               response <- create client rq ;;
               logger_info LOGGER m2 ;;
               text <- lift (first_content response) ;;
               k text) env)
  = Raise e.
Proof.
  intros Hg Hf. rewrite (round_trip_run env key m1 m2 rq k Hg), Hf. reflexivity.
Qed.

Lemma round_trip_no_choice {A} (env : Environment) (key : pystr)
      (m1 m2 : pystr) (rq : chat_request) (k : option pystr -> M A) :
  get_client env = ([], Ok {| api_key := key |}) ->
  no_choices env ->
  outcome_of ((client <- get_client ;;
               logger_info LOGGER m1 ;;
               response <- create client rq ;;
               logger_info LOGGER m2 ;;
               text <- lift (first_content response) ;;
               k text) env)
  = Raise (IndexError (u "list index out of range")).
Proof.
  intros Hg Hf. rewrite (round_trip_run env key m1 m2 rq k Hg), Hf. reflexivity.
Qed.

Lemma round_trip_outcome {A} (env : Environment) (key : pystr)
      (text : option pystr) (m1 m2 : pystr) (rq : chat_request)
      (k : option pystr -> M A) :
  get_client env = ([], Ok {| api_key := key |}) ->
  answers env text ->
  outcome_of ((client <- get_client ;;
               logger_info LOGGER m1 ;;
               response <- create client rq ;;
               logger_info LOGGER m2 ;;
               text <- lift (first_content response) ;;
               k text) env)
  = outcome_of (k text env).
Proof.
  intros Hg Ha. rewrite (round_trip_eq env key text m1 m2 rq k Hg Ha). reflexivity.
Qed.

(** The collusion operation renders its prompt first, which never
    fails, and then runs like the others. *)
Lemma collusion_run (isprintable : codepoint -> bool) (req : CollusionRequest.t)
      (env : Environment) :
  exists prompt,
    collusion_prompt isprintable req = Ok prompt
    /\ run_collusion_check isprintable req env
       = (client <- get_client ;;
          logger_info LOGGER (u "📤 [Mode 2] Collusion check → " ++ TEXT_MODEL) ;;
          response <- create client
            {| model := TEXT_MODEL;
               temperature := 1 # 10;
               messages := [ SYSTEM_MESSAGE; user_message prompt ] |} ;;
          logger_info LOGGER (u "✅ [Mode 2] Response received") ;;
          text <- lift (first_content response) ;;
          parse_or_raise (u "Could not parse collusion response: ") text) env.
Proof.
  eexists. split; [apply collusion_prompt_Ok|].
  unfold run_collusion_check.
  erewrite bind_Ok by (unfold lift; rewrite collusion_prompt_Ok; reflexivity).
  rewrite app_nil_l. symmetry. apply surjective_outcome.
Qed.

(** ** The endpoint around an operation *)

Lemma endpoint_raises {A B} (body : M A) (k : A -> M B) (what : pystr)
      (env : Environment) (e : exn) :
  outcome_of (body env) = Raise e ->
  outcome_of (try_except (x <- body ;; k x) (http_500 what) env)
  = Raise (HTTPException 500 (exn_str e)).
Proof.
  intros E.
  assert (Hb : body env = (trace_of (body env), Raise e))
    by (rewrite <- E; apply surjective_outcome).
  rewrite (http_500_of_raise _ what env _ _ (bind_Raise _ _ _ _ _ Hb)).
  reflexivity.
Qed.

Lemma endpoint_raises_detail {A B} (body : M A) (k : A -> M B) (what : pystr)
      (env : Environment) (e : exn) (detail : pystr) :
  outcome_of (body env) = Raise e ->
  exn_str e = detail ->
  outcome_of (try_except (x <- body ;; k x) (http_500 what) env)
  = Raise (HTTPException 500 detail).
Proof. intros E <-. apply endpoint_raises, E. Qed.


(** The wrapper of every endpoint, on any body. *)
Lemma endpoint_wraps {A B} (body : M A) (f : A -> B) (what : pystr)
      (env : Environment) :
  try_except (x <- body ;; ret (f x)) (http_500 what) env
  = match outcome_of (body env) with
    | Ok a => (trace_of (body env), Ok (f a))
    | Raise e =>
        (trace_of (body env) ++ [Log MAIN_LOGGER ERROR (what ++ exn_str e)],
         Raise (HTTPException 500 (exn_str e)))
    end.
Proof.
  destruct (body env) as [tr [a|e]] eqn:E.
  - apply try_except_Ok. apply (bind_ret_Ok _ f env _ _ E).
  - apply http_500_of_raise. apply (bind_Raise _ _ _ _ _ E).
Qed.

Lemma handler_wraps {A} (body : M A) (f : A -> json) (what : pystr)
      (env : Environment) :
  wraps what f body (try_except (x <- body ;; ret (f x)) (http_500 what)) env.
Proof.
  unfold wraps. rewrite endpoint_wraps.
  destruct (outcome_of (body env)) as [a|e]; [reflexivity|].
  intros _. reflexivity.
Qed.



(** ** The operations, by the answer of the provider *)

Section Operations.
Variable isprintable : codepoint -> bool.
Variable float : Type.
Variable float_repr : float -> pystr.


(** X2. With a usable credential, when the call to the provider raises
    an exception, every operation raises that same exception (nothing
    is caught or translated in the service), and its endpoint answers
    with status 500 and the text of the exception as detail. *)
Theorem provider_failure_propagates (env : Environment) (e : exn) :
  ~ credential_missing env ->
  service_error e ->
  provider_fails env e ->
  (forall req,
      outcome_of (run_vision_analysis req env) = Raise e
      /\ outcome_of (vision_endpoint req env)
         = Raise (HTTPException 500 (exn_str e)))
  /\ (forall req,
      outcome_of (run_collusion_check isprintable req env) = Raise e
      /\ outcome_of (collusion_endpoint isprintable req env)
         = Raise (HTTPException 500 (exn_str e)))
  /\ (forall req,
      outcome_of (generate_health_narrative float req env) = Raise e
      /\ outcome_of (health_narrative_endpoint float req env)
         = Raise (HTTPException 500 (exn_str e)))
  /\ (forall req,
      outcome_of (generate_investor_signal float float_repr req env) = Raise e
      /\ outcome_of (investor_signal_endpoint float float_repr req env)
         = Raise (HTTPException 500 (exn_str e))).
Proof.
  intros Hc _ Hf. destruct (get_client_usable env Hc) as (key & _ & Hg).
  assert (Hv : forall req, outcome_of (run_vision_analysis req env) = Raise e).
  { intros req. unfold run_vision_analysis. cbv zeta.
    apply (round_trip_fails env key e _ _ _ _ Hg Hf). }
  assert (Hcol : forall req,
             outcome_of (run_collusion_check isprintable req env) = Raise e).
  { intros req. destruct (collusion_run isprintable req env) as (prompt & _ & Hr).
    rewrite Hr. apply (round_trip_fails env key e _ _ _ _ Hg Hf). }
  assert (Hn : forall req,
             outcome_of (generate_health_narrative float req env) = Raise e).
  { intros req. unfold generate_health_narrative. cbv zeta.
    apply (round_trip_fails env key e _ _ _ _ Hg Hf). }
  assert (Hi : forall req,
             outcome_of (generate_investor_signal float float_repr req env)
             = Raise e).
  { intros req. unfold generate_investor_signal. cbv zeta.
    apply (round_trip_fails env key e _ _ _ _ Hg Hf). }
  split; [|split; [|split]]; intros req.
  - split; [exact (Hv req)|].
    unfold vision_endpoint. apply endpoint_raises. exact (Hv req).
  - split; [exact (Hcol req)|].
    unfold collusion_endpoint. apply endpoint_raises. exact (Hcol req).
  - split; [exact (Hn req)|].
    unfold health_narrative_endpoint. apply endpoint_raises. exact (Hn req).
  - split; [exact (Hi req)|].
    unfold investor_signal_endpoint. apply endpoint_raises. exact (Hi req).
Qed.

(** The three structured operations end alike, in [parse_or_raise] on
    the text of the response. *)
Lemma structured_outcomes (env : Environment) (text : option pystr)
      (o : pystr -> result json) :
  ~ credential_missing env ->
  answers env text ->
  (forall could_not, outcome_of (parse_or_raise could_not text env) = o could_not) ->
  (forall req,
      outcome_of (run_vision_analysis req env)
      = o (u "Could not parse vision response: "))
  /\ (forall req,
      outcome_of (run_collusion_check isprintable req env)
      = o (u "Could not parse collusion response: "))
  /\ (forall req,
      outcome_of (generate_investor_signal float float_repr req env)
      = o (u "Could not parse investor signal response: ")).
Proof.
  intros Hc Ha Ho. destruct (get_client_usable env Hc) as (key & _ & Hg).
  split; [|split]; intros req.
  - unfold run_vision_analysis. cbv zeta.
    rewrite (round_trip_outcome env key text _ _ _ _ Hg Ha). apply Ho.
  - destruct (collusion_run isprintable req env) as (prompt & _ & Hr).
    rewrite Hr.
    rewrite (round_trip_outcome env key text _ _ _ _ Hg Ha). apply Ho.
  - unfold generate_investor_signal. cbv zeta.
    rewrite (round_trip_outcome env key text _ _ _ _ Hg Ha). apply Ho.
Qed.


(** X4. With a usable credential and a provider that answers the text
    [text], when the cleaned text is valid for the decoder but decodes
    to a value that Python counts as false (the empty object, the empty
    list, the empty string, zero, [false], [null]), each structured
    operation reports it like an unparseable response: it raises the
    [ValueError] with its "Could not parse ... response: " sentence and
    the first 300 characters of [text], and the endpoint answers with
    status 500 and that message. *)
Theorem falsy_value_reported_unparseable (env : Environment) (text : pystr)
        (v : json) :
  ~ credential_missing env ->
  answers env (Some text) ->
  json_loads (cleaned text) = Some v ->
  truthy v = false ->
  let snippet := slice_to 300 text in
  (forall req,
      outcome_of (run_vision_analysis req env)
      = Raise (ValueError (u "Could not parse vision response: " ++ snippet))
      /\ outcome_of (vision_endpoint req env)
         = Raise (HTTPException 500
                    (u "Could not parse vision response: " ++ snippet)))
  /\ (forall req,
      outcome_of (run_collusion_check isprintable req env)
      = Raise (ValueError (u "Could not parse collusion response: " ++ snippet))
      /\ outcome_of (collusion_endpoint isprintable req env)
         = Raise (HTTPException 500
                    (u "Could not parse collusion response: " ++ snippet)))
  /\ (forall req,
      outcome_of (generate_investor_signal float float_repr req env)
      = Raise (ValueError
                 (u "Could not parse investor signal response: " ++ snippet))
      /\ outcome_of (investor_signal_endpoint float float_repr req env)
         = Raise (HTTPException 500
                    (u "Could not parse investor signal response: " ++ snippet))).
Proof.
  intros Hc Ha E Ht snippet.
  destruct (structured_outcomes env (Some text)
              (fun could_not => Raise (ValueError (could_not ++ snippet))) Hc Ha)
    as (Hv & Hcol & Hi).
  { intros could_not. rewrite parse_or_raise_run, E, Ht. reflexivity. }
  cbv beta in Hv, Hcol, Hi.
  split; [|split]; intros req.
  - split; [exact (Hv req)|].
    unfold vision_endpoint. apply endpoint_value_error. exact (Hv req).
  - split; [exact (Hcol req)|].
    unfold collusion_endpoint. apply endpoint_value_error. exact (Hcol req).
  - split; [exact (Hi req)|].
    unfold investor_signal_endpoint. apply endpoint_value_error. exact (Hi req).
Qed.

(** X5. With a usable credential and a provider whose first choice has
    no content ([None]), each structured operation raises a [TypeError]
    (the slice of the error message is taken of [None]) and not its
    "Could not parse" error, and its endpoint answers with status 500
    and the text of the [TypeError]. *)
Theorem missing_content_raises_type_error (env : Environment) :
  ~ credential_missing env ->
  answers env None ->
  let msg := u "'NoneType' object is not subscriptable" in
  (forall req,
      outcome_of (run_vision_analysis req env) = Raise (TypeError msg)
      /\ outcome_of (vision_endpoint req env) = Raise (HTTPException 500 msg))
  /\ (forall req,
      outcome_of (run_collusion_check isprintable req env) = Raise (TypeError msg)
      /\ outcome_of (collusion_endpoint isprintable req env)
         = Raise (HTTPException 500 msg))
  /\ (forall req,
      outcome_of (generate_investor_signal float float_repr req env)
      = Raise (TypeError msg)
      /\ outcome_of (investor_signal_endpoint float float_repr req env)
         = Raise (HTTPException 500 msg)).
Proof.
  intros Hc Ha msg.
  destruct (structured_outcomes env None (fun _ => Raise (TypeError msg)) Hc Ha)
    as (Hv & Hcol & Hi).
  { intros could_not. rewrite parse_or_raise_run. reflexivity. }
  cbv beta in Hv, Hcol, Hi.
  split; [|split]; intros req.
  - split; [exact (Hv req)|].
    unfold vision_endpoint.
    apply (endpoint_raises_detail _ _ _ env (TypeError msg) msg (Hv req)).
    reflexivity.
  - split; [exact (Hcol req)|].
    unfold collusion_endpoint.
    apply (endpoint_raises_detail _ _ _ env (TypeError msg) msg (Hcol req)).
    reflexivity.
  - split; [exact (Hi req)|].
    unfold investor_signal_endpoint.
    apply (endpoint_raises_detail _ _ _ env (TypeError msg) msg (Hi req)).
    reflexivity.
Qed.

(** X6. With a usable credential and a provider that answers with an
    empty list of choices, every operation raises the [IndexError] of
    indexing that list, and its endpoint answers with status 500 and
    the text of the [IndexError]. *)
Theorem empty_choices_raise_index_error (env : Environment) :
  ~ credential_missing env ->
  no_choices env ->
  let msg := u "list index out of range" in
  (forall req,
      outcome_of (run_vision_analysis req env) = Raise (IndexError msg)
      /\ outcome_of (vision_endpoint req env) = Raise (HTTPException 500 msg))
  /\ (forall req,
      outcome_of (run_collusion_check isprintable req env) = Raise (IndexError msg)
      /\ outcome_of (collusion_endpoint isprintable req env)
         = Raise (HTTPException 500 msg))
  /\ (forall req,
      outcome_of (generate_health_narrative float req env) = Raise (IndexError msg)
      /\ outcome_of (health_narrative_endpoint float req env)
         = Raise (HTTPException 500 msg))
  /\ (forall req,
      outcome_of (generate_investor_signal float float_repr req env)
      = Raise (IndexError msg)
      /\ outcome_of (investor_signal_endpoint float float_repr req env)
         = Raise (HTTPException 500 msg)).
Proof.
  intros Hc Hf msg. destruct (get_client_usable env Hc) as (key & _ & Hg).
  assert (Hv : forall req,
             outcome_of (run_vision_analysis req env) = Raise (IndexError msg)).
  { intros req. unfold run_vision_analysis. cbv zeta.
    apply (round_trip_no_choice env key _ _ _ _ Hg Hf). }
  assert (Hcol : forall req,
             outcome_of (run_collusion_check isprintable req env)
             = Raise (IndexError msg)).
  { intros req. destruct (collusion_run isprintable req env) as (prompt & _ & Hr).
    rewrite Hr. apply (round_trip_no_choice env key _ _ _ _ Hg Hf). }
  assert (Hn : forall req,
             outcome_of (generate_health_narrative float req env)
             = Raise (IndexError msg)).
  { intros req. unfold generate_health_narrative. cbv zeta.
    apply (round_trip_no_choice env key _ _ _ _ Hg Hf). }
  assert (Hi : forall req,
             outcome_of (generate_investor_signal float float_repr req env)
             = Raise (IndexError msg)).
  { intros req. unfold generate_investor_signal. cbv zeta.
    apply (round_trip_no_choice env key _ _ _ _ Hg Hf). }
  split; [|split; [|split]]; intros req.
  - split; [exact (Hv req)|].
    unfold vision_endpoint.
    apply (endpoint_raises_detail _ _ _ env (IndexError msg) msg (Hv req)).
    reflexivity.
  - split; [exact (Hcol req)|].
    unfold collusion_endpoint.
    apply (endpoint_raises_detail _ _ _ env (IndexError msg) msg (Hcol req)).
    reflexivity.
  - split; [exact (Hn req)|].
    unfold health_narrative_endpoint.
    apply (endpoint_raises_detail _ _ _ env (IndexError msg) msg (Hn req)).
    reflexivity.
  - split; [exact (Hi req)|].
    unfold investor_signal_endpoint.
    apply (endpoint_raises_detail _ _ _ env (IndexError msg) msg (Hi req)).
    reflexivity.
Qed.

(** X7. What an endpoint adds to its operation, for every environment
    and request.  When the operation returns, the endpoint returns the
    same value (the narrative endpoint wraps the string in an object
    with the one key "narrative") and adds no event.  When the
    operation raises an exception [e] (of the service or of the
    provider client), the endpoint adds one ERROR record of the logger
    "main", its "... failed: " sentence followed by [str(e)], and
    raises an [HTTPException] with status 500 and detail [str(e)]: no
    other status and no other exception leaves an endpoint, and no
    failure is swallowed. *)
Theorem endpoints_wrap_operations (env : Environment) :
  (forall req,
      wraps (u "Vision analysis failed: ") (fun result => result)
        (run_vision_analysis req) (vision_endpoint req) env)
  /\ (forall req,
      wraps (u "Collusion check failed: ") (fun result => result)
        (run_collusion_check isprintable req)
        (collusion_endpoint isprintable req) env)
  /\ (forall req,
      wraps (u "Health narrative failed: ")
        (fun narrative => JObj [ (u "narrative", JStr narrative) ])
        (generate_health_narrative float req)
        (health_narrative_endpoint float req) env)
  /\ (forall req,
      wraps (u "Investor signal failed: ") (fun result => result)
        (generate_investor_signal float float_repr req)
        (investor_signal_endpoint float float_repr req) env).
Proof.
  split; [|split; [|split]]; intros req.
  - unfold vision_endpoint. apply handler_wraps.
  - unfold collusion_endpoint. apply handler_wraps.
  - unfold health_narrative_endpoint. apply handler_wraps.
  - unfold investor_signal_endpoint. apply handler_wraps.
Qed.



End Operations.


Lemma provider_failure_propagates_witness :
  outcome_of (vision_endpoint sample_vision
                (failing_env (Some (u "gsk_live")) (APIError (u "rate limit"))))
  = Raise (HTTPException 500 (u "rate limit")).
Proof.
  apply (proj2 (proj1 (provider_failure_propagates
    all_printable Z sample_float_repr
    (failing_env (Some (u "gsk_live")) (APIError (u "rate limit")))
    (APIError (u "rate limit"))
    ltac:(intros [H|[H|H]]; vm_compute in H; discriminate H)
    ltac:(exact I)
    ltac:(intros client req; reflexivity)) sample_vision)).
Defined.


Lemma falsy_value_reported_unparseable_witness :
  outcome_of (run_collusion_check all_printable (sample_collusion 3)
                (sample_env (Some (u "gsk_live")) (Some (u " [] "))))
  = Raise (ValueError (u "Could not parse collusion response: "
                         ++ slice_to 300 (u " [] "))).
Proof.
  apply (proj1 (proj1 (proj2 (falsy_value_reported_unparseable
    all_printable Z sample_float_repr
    (sample_env (Some (u "gsk_live")) (Some (u " [] ")))
    (u " [] ") (JArr [])
    ltac:(intros [H|[H|H]]; vm_compute in H; discriminate H)
    ltac:(intros client req; exists []; reflexivity)
    ltac:(vm_compute; reflexivity)
    ltac:(reflexivity))) (sample_collusion 3))).
Defined.

Lemma missing_content_raises_type_error_witness :
  outcome_of (generate_investor_signal Z sample_float_repr sample_investor
                (sample_env (Some (u "gsk_live")) None))
  = Raise (TypeError (u "'NoneType' object is not subscriptable")).
Proof.
  apply (proj1 (proj2 (proj2 (missing_content_raises_type_error
    all_printable Z sample_float_repr
    (sample_env (Some (u "gsk_live")) None)
    ltac:(intros [H|[H|H]]; vm_compute in H; discriminate H)
    ltac:(intros client req; exists []; reflexivity))) sample_investor)).
Defined.

Lemma empty_choices_raise_index_error_witness :
  outcome_of (health_narrative_endpoint Z (sample_narrative 70)
                (choiceless_env (Some (u "gsk_live"))))
  = Raise (HTTPException 500 (u "list index out of range")).
Proof.
  apply (proj2 (proj1 (proj2 (proj2 (empty_choices_raise_index_error
    all_printable Z sample_float_repr
    (choiceless_env (Some (u "gsk_live")))
    ltac:(intros [H|[H|H]]; vm_compute in H; discriminate H)
    ltac:(intros client req; reflexivity)))) (sample_narrative 70))).
Defined.

Lemma endpoints_wrap_operations_witness :
  outcome_of (vision_endpoint sample_vision
                (failing_env (Some (u "gsk_live")) (APIError (u "rate limit"))))
  = Raise (HTTPException 500 (u "rate limit")).
Proof.
  pose proof (proj1 (endpoints_wrap_operations all_printable Z sample_float_repr
    (failing_env (Some (u "gsk_live")) (APIError (u "rate limit"))))
    sample_vision) as H.
  unfold wraps in H.
  assert (E : outcome_of (run_vision_analysis sample_vision
                (failing_env (Some (u "gsk_live")) (APIError (u "rate limit"))))
              = Raise (APIError (u "rate limit")))
    by (vm_compute; reflexivity).
  rewrite E in H. rewrite (H I). reflexivity.
Defined.


(** ** Every outcome of a structured operation, explained *)

Lemma parse_tail_explained (env : Environment) (key : pystr)
      (m1 m2 could_not : pystr) (rq : chat_request) :
  get_client env = ([], Ok {| api_key := key |}) ->
  match outcome_of ((client <- get_client ;;
                     logger_info LOGGER m1 ;;
                     response <- create client rq ;;
                     logger_info LOGGER m2 ;;
                     text <- lift (first_content response) ;;
                     parse_or_raise could_not text) env) with
  | Ok v => decoded_from_provider env v
  | Raise e => failure_cause env could_not e
  end.
Proof.
  intros Hg. rewrite (round_trip_run env key m1 m2 rq _ Hg).
  destruct (chat_completions env {| api_key := key |} rq) as [[chs]|e] eqn:Ec.
  - destruct chs as [|[text] rest];
      cbn [first_content py_index nth_error choices choice_content].
    + apply (no_choice env could_not _ _ Ec).
    + unfold outcome_of at 1. unfold snd.
      rewrite parse_or_raise_run. destruct text as [t|].
      * destruct (json_loads (cleaned t)) as [v|] eqn:E.
        -- destruct (truthy v) eqn:Et; cbn [outcome_of snd].
           ++ split; [exact Et|]. eexists. eexists. exists t, rest.
              split; [exact Ec | exact E].
           ++ apply (no_usable_value env could_not _ _ t rest Ec).
              right. exists v. split; [exact E | exact Et].
        -- cbn [outcome_of snd].
           apply (no_usable_value env could_not _ _ t rest Ec).
           left. exact E.
      * apply (no_content env could_not _ _ rest Ec).
  - apply (provider_raised env could_not _ _ e Ec).
Qed.

Section Explained.
Variable isprintable : codepoint -> bool.
Variable float : Type.
Variable float_repr : float -> pystr.

Lemma structured_outcome_explained (env : Environment) :
  (forall req,
      match outcome_of (run_vision_analysis req env) with
      | Ok v => decoded_from_provider env v
      | Raise e => failure_cause env (u "Could not parse vision response: ") e
      end)
  /\ (forall req,
      match outcome_of (run_collusion_check isprintable req env) with
      | Ok v => decoded_from_provider env v
      | Raise e => failure_cause env (u "Could not parse collusion response: ") e
      end)
  /\ (forall req,
      match outcome_of (generate_investor_signal float float_repr req env) with
      | Ok v => decoded_from_provider env v
      | Raise e =>
          failure_cause env (u "Could not parse investor signal response: ") e
      end).
Proof.
  destruct (credential_unusable (getenv env (u "GROQ_API_KEY"))) eqn:E.
  - assert (Hm : credential_missing env) by (apply credential_unusable_iff, E).
    split; [|split]; intros req.
    + unfold run_vision_analysis. cbv zeta.
      rewrite gated_missing by exact Hm. apply no_credential, Hm.
    + unfold run_collusion_check.
      erewrite bind_Ok
        by (unfold lift; rewrite collusion_prompt_Ok; reflexivity).
      rewrite gated_missing by exact Hm. apply no_credential, Hm.
    + unfold generate_investor_signal. cbv zeta.
      rewrite gated_missing by exact Hm. apply no_credential, Hm.
  - assert (Hc : ~ credential_missing env).
    { intros Hm. apply credential_unusable_iff in Hm. congruence. }
    destruct (get_client_usable env Hc) as (key & _ & Hg).
    split; [|split]; intros req.
    + unfold run_vision_analysis. cbv zeta.
      apply (parse_tail_explained env key _ _ _ _ Hg).
    + destruct (collusion_run isprintable req env) as (prompt & _ & Hr).
      rewrite Hr. apply (parse_tail_explained env key _ _ _ _ Hg).
    + unfold generate_investor_signal. cbv zeta.
      apply (parse_tail_explained env key _ _ _ _ Hg).
Qed.

(** X9. In every environment, whatever a structured operation returns
    is a value that Python counts as true and that the decoder gives
    for the cleaned content of the first choice of an answer of the
    provider: an operation never returns [None], an empty object or a
    value of its own making. *)
Theorem returned_value_is_decoded_answer (env : Environment) (v : json) :
  (forall req,
      outcome_of (run_vision_analysis req env) = Ok v ->
      decoded_from_provider env v)
  /\ (forall req,
      outcome_of (run_collusion_check isprintable req env) = Ok v ->
      decoded_from_provider env v)
  /\ (forall req,
      outcome_of (generate_investor_signal float float_repr req env) = Ok v ->
      decoded_from_provider env v).
Proof.
  destruct (structured_outcome_explained env) as (Hv & Hcol & Hi).
  split; [|split]; intros req H.
  - specialize (Hv req). rewrite H in Hv. exact Hv.
  - specialize (Hcol req). rewrite H in Hcol. exact Hcol.
  - specialize (Hi req). rewrite H in Hi. exact Hi.
Qed.

End Explained.

Lemma returned_value_is_decoded_answer_witness :
  decoded_from_provider
    (sample_env (Some (u "gsk_live")) (Some fenced_vision_result))
    (JObj [ (u "hygiene_score", JInt 80) ]).
Proof.
  apply (proj1 (returned_value_is_decoded_answer all_printable Z sample_float_repr
    (sample_env (Some (u "gsk_live")) (Some fenced_vision_result))
    (JObj [ (u "hygiene_score", JInt 80) ])) sample_vision).
  vm_compute. reflexivity.
Defined.


(** ** The text handed to the decoder *)

Lemma startswith_app (p a b : pystr) :
  startswith p a = true -> startswith p (a ++ b) = true.
Proof.
  revert a. induction p as [|x p IH]; intros a H; [reflexivity|].
  destruct a as [|y a]; [discriminate H|].
  cbn [startswith app] in *. apply andb_prop in H. destruct H as [Hx Hp].
  rewrite Hx. apply IH, Hp.
Qed.

Lemma fence_json_is_fence (s : pystr) :
  startswith FENCE_JSON s = true -> startswith FENCE s = true.
Proof.
  intros H. apply startswith_split in H. rewrite H.
  change FENCE_JSON with (FENCE ++ u "json"). rewrite <- app_assoc.
  apply startswith_self.
Qed.

Lemma fence_match_zero (s : pystr) :
  fence_match s = 0%nat <-> startswith FENCE s = false.
Proof.
  unfold fence_match. split.
  - destruct (startswith FENCE_JSON s).
    + destruct (skipn 7 s) as [|c r]; [discriminate|].
      destruct (c =? 10); discriminate.
    + destruct (startswith FENCE s); [discriminate | reflexivity].
  - intros H. destruct (startswith FENCE_JSON s) eqn:E.
    + apply fence_json_is_fence in E. congruence.
    + rewrite H. reflexivity.
Qed.

Lemma sub_fences_from_emit (c : codepoint) (r : pystr) :
  startswith FENCE (c :: r) = false ->
  sub_fences_from 0 (c :: r) = c :: sub_fences_from 0 r.
Proof.
  intros H. apply fence_match_zero in H.
  cbn [sub_fences_from]. rewrite H. reflexivity.
Qed.

Lemma startswith_fence_cons (c : codepoint) (r : pystr) :
  startswith FENCE (c :: r) = (96 =? c) && startswith [96; 96] r.
Proof. reflexivity. Qed.

(** A text that does not start with two backticks is not given two by
    the substitution. *)
Lemma sub_fences_two_backticks (s : pystr) :
  startswith [96; 96] s = false ->
  startswith [96; 96] (sub_fences_from 0 s) = false.
Proof.
  destruct s as [|c r]; [reflexivity|].
  destruct (96 =? c) eqn:Ec.
  - destruct r as [|d r']; intros H.
    + rewrite sub_fences_from_emit
        by (rewrite startswith_fence_cons; apply andb_false_r).
      cbn [sub_fences_from startswith]. apply andb_false_r.
    + cbn [startswith] in H. rewrite Ec, andb_true_l, andb_true_r in H.
      rewrite sub_fences_from_emit
        by (rewrite startswith_fence_cons; cbn [startswith];
            rewrite H, andb_false_r; reflexivity).
      rewrite sub_fences_from_emit
        by (rewrite startswith_fence_cons, H; reflexivity).
      cbn [startswith]. rewrite Ec, H. reflexivity.
  - intros _.
    rewrite sub_fences_from_emit
      by (rewrite startswith_fence_cons, Ec; reflexivity).
    cbn [startswith]. rewrite Ec. reflexivity.
Qed.

Lemma sub_fences_from_no_fence (s : pystr) :
  forall skip, contains_fence (sub_fences_from skip s) = false.
Proof.
  induction s as [|c r IH]; intros skip; [destruct skip; reflexivity|].
  destruct skip as [|k]; [|apply IH].
  destruct (startswith FENCE (c :: r)) eqn:E.
  - cbn [sub_fences_from].
    destruct (fence_match (c :: r)) as [|k] eqn:Em; [|apply IH].
    apply fence_match_zero in Em. congruence.
  - rewrite sub_fences_from_emit by exact E.
    cbn [contains_fence]. rewrite IH, orb_false_r.
    rewrite startswith_fence_cons in E |- *.
    destruct (96 =? c); [|reflexivity].
    rewrite andb_true_l in E |- *. apply sub_fences_two_backticks, E.
Qed.

Lemma contains_fence_app_l (a b : pystr) :
  contains_fence (a ++ b) = false -> contains_fence a = false.
Proof.
  induction a as [|c a IH]; [reflexivity|].
  cbn [contains_fence app]. intros H. apply orb_false_elim in H.
  destruct H as [Hs Hc]. rewrite (IH Hc), orb_false_r.
  destruct (startswith FENCE (c :: a)) eqn:E; [|reflexivity].
  apply (startswith_app _ _ b) in E. cbn [app] in E. congruence.
Qed.

Lemma contains_fence_app_r (a b : pystr) :
  contains_fence (a ++ b) = false -> contains_fence b = false.
Proof.
  induction a as [|c a IH]; [intros H; exact H|].
  cbn [contains_fence app]. intros H. apply orb_false_elim in H.
  apply IH, H.
Qed.

Lemma lstrip_suffix (s : pystr) :
  exists ws, forallb py_isspace ws = true /\ s = ws ++ lstrip s.
Proof.
  induction s as [|c r (ws & Hws & IH)]; [exists []; split; reflexivity|].
  cbn [lstrip]. destruct (py_isspace c) eqn:E.
  - exists (c :: ws). split.
    + cbn. rewrite E. exact Hws.
    + cbn [app]. f_equal. exact IH.
  - exists []. split; reflexivity.
Qed.

Lemma rstrip_prefix (s : pystr) :
  exists ws, forallb py_isspace ws = true /\ s = rstrip s ++ ws.
Proof.
  destruct (lstrip_suffix (rev s)) as (ws & Hws & E).
  exists (rev ws). split.
  - rewrite forallb_rev. exact Hws.
  - unfold rstrip. rewrite <- rev_app_distr, <- E. symmetry. apply rev_involutive.
Qed.

Lemma strip_no_fence (s : pystr) :
  contains_fence s = false -> contains_fence (strip s) = false.
Proof.
  intros H. unfold strip.
  destruct (lstrip_suffix s) as (wl & _ & El).
  destruct (rstrip_prefix (lstrip s)) as (wr & _ & Er).
  rewrite El in H. apply contains_fence_app_r in H.
  rewrite Er in H. apply contains_fence_app_l in H. exact H.
Qed.

Lemma lstrip_head (s : pystr) :
  head_all (fun c => negb (py_isspace c)) (lstrip s) = true.
Proof.
  induction s as [|c r IH]; [reflexivity|].
  cbn [lstrip]. destruct (py_isspace c) eqn:E; [exact IH|].
  cbn [head_all]. rewrite E. reflexivity.
Qed.

Lemma strip_trimmed (s : pystr) : trimmed (strip s).
Proof.
  unfold trimmed, strip, rstrip.
  pose proof (lstrip_head s) as Hh. set (l := lstrip s) in *.
  destruct (lstrip_suffix (rev l)) as (ws & Hws & E).
  pose proof (lstrip_head (rev l)) as Hd.
  destruct (lstrip (rev l)) as [|d r'] eqn:El.
  - left. reflexivity.
  - right. cbn [head_all] in Hd. apply negb_true_iff in Hd.
    assert (Hl : l = (rev r' ++ [d]) ++ rev ws).
    { rewrite <- (rev_involutive l), E, rev_app_distr. reflexivity. }
    cbn [rev]. split.
    + destruct (rev r') as [|x y] eqn:Er.
      * cbn [app head_all]. rewrite Hd. reflexivity.
      * rewrite Hl in Hh. exact Hh.
    + split.
      * intros H. apply app_eq_nil in H. destruct H as [_ H]. discriminate H.
      * rewrite last_last. exact Hd.
Qed.

Lemma strip_of_trimmed (s : pystr) : trimmed s -> strip s = s.
Proof.
  intros [->|[Hh He]]; [reflexivity|].
  unfold strip. destruct s as [|c r]; [reflexivity|].
  cbn [head_all] in Hh. apply negb_true_iff in Hh.
  rewrite lstrip_cons by exact Hh.
  rewrite <- (app_nil_r (c :: r)) at 1.
  apply rstrip_app; [exact He | reflexivity].
Qed.

Lemma sub_fences_of_fence_free (s : pystr) :
  contains_fence s = false -> sub_fences s = s.
Proof.
  unfold sub_fences. induction s as [|c r IH]; [reflexivity|].
  cbn [contains_fence]. intros H. apply orb_false_elim in H.
  destruct H as [Hs Hc].
  rewrite sub_fences_from_emit by exact Hs. f_equal. apply IH, Hc.
Qed.

(** X11. The text handed to [json.loads] never holds a code fence marker:
    after the substitution and the trimming no three backticks in a row
    are left anywhere in it, whatever the response text was (removing a
    match never joins backticks on its two sides into a new marker). *)
Theorem cleaned_text_has_no_fence (t : pystr) :
  contains_fence (cleaned t) = false.
Proof.
  unfold cleaned. apply strip_no_fence.
  unfold sub_fences. apply sub_fences_from_no_fence.
Qed.

(** X12. The text handed to [json.loads] is trimmed: it is empty, or it
    neither starts nor ends with a character that Python counts as
    whitespace. *)
Theorem cleaned_text_is_trimmed (t : pystr) : trimmed (cleaned t).
Proof. unfold cleaned. apply strip_trimmed. Qed.

(** X13. Cleaning is idempotent: cleaning a cleaned text changes
    nothing, so the parsing helper gives the same result on a cleaned
    text as on the text it was cleaned from. *)
Theorem cleaning_is_idempotent (t : pystr) (env : Environment) :
  cleaned (cleaned t) = cleaned t
  /\ outcome_of (safe_json_parse (Some (cleaned t)) env)
     = outcome_of (safe_json_parse (Some t) env).
Proof.
  assert (H : cleaned (cleaned t) = cleaned t).
  { unfold cleaned at 1.
    rewrite sub_fences_of_fence_free
      by (apply strip_no_fence, sub_fences_from_no_fence).
    apply strip_of_trimmed. unfold cleaned. apply strip_trimmed. }
  split; [exact H|].
  rewrite !safe_json_parse_outcome, H. reflexivity.
Qed.

(** ** What the parsing helper logs *)



(** ** What the prompts show of a request *)

Lemma bool_str_app_inj (b1 b2 : bool) (x y : pystr) :
  bool_str b1 ++ x = bool_str b2 ++ y -> b1 = b2 /\ x = y.
Proof.
  change (bool_str true) with [84; 114; 117; 101].
  change (bool_str false) with [70; 97; 108; 115; 101].
  destruct b1, b2; cbn [bool_str app]; intros H.
  - injection H as H. split; [reflexivity | exact H].
  - discriminate H.
  - discriminate H.
  - injection H as H. split; [reflexivity | exact H].
Qed.

(** X15. The vision prompt shows the checklist of the request and
    nothing else of it: two requests have the same prompt exactly when
    their checklists are equal, whatever their images. *)
Theorem vision_prompt_tells_checklist (r1 r2 : VisionRequest.t) :
  vision_prompt r1 = vision_prompt r2
  <-> VisionRequest.checklist r1 = VisionRequest.checklist r2.
Proof.
  unfold vision_prompt. cbv zeta. split.
  - intros H.
    apply app_inv_head in H. apply bool_str_app_inj in H. destruct H as [Hd H].
    apply app_inv_head in H. apply bool_str_app_inj in H. destruct H as [Hw H].
    apply app_inv_head in H. apply bool_str_app_inj in H. destruct H as [Hc H].
    apply app_inv_head in H. apply bool_str_app_inj in H. destruct H as [Ht _].
    destruct (VisionRequest.checklist r1), (VisionRequest.checklist r2).
    cbn in Hd, Hw, Hc, Ht. subst. reflexivity.
  - intros ->. reflexivity.
Qed.

Lemma vision_prompt_tells_checklist_witness :
  vision_prompt sample_vision
  = vision_prompt {| VisionRequest.base64_image := u "d29ybGQ=";
                     VisionRequest.checklist := sample_checklist |}.
Proof.
  apply (proj2 (vision_prompt_tells_checklist sample_vision
    {| VisionRequest.base64_image := u "d29ybGQ=";
       VisionRequest.checklist := sample_checklist |})).
  reflexivity.
Defined.

Section ShownFields.
Variable isprintable : codepoint -> bool.

Lemma fmt_reads_fields (s1 s2 : SubmissionModel.t) :
  fmt_fields s1 = fmt_fields s2 -> fmt isprintable s1 = fmt isprintable s2.
Proof.
  unfold fmt_fields, fmt. intros H. injection H as Hs Hc Hf.
  rewrite Hs, Hc, Hf. reflexivity.
Qed.

Lemma rendered_slot_reads_fields (l1 l2 : list SubmissionModel.t) (i : nat) :
  map fmt_fields l1 = map fmt_fields l2 ->
  rendered_slot isprintable l1 i = rendered_slot isprintable l2 i.
Proof.
  intros H. unfold rendered_slot.
  assert (E : nth_error (map fmt_fields l1) i = nth_error (map fmt_fields l2) i)
    by (rewrite H; reflexivity).
  rewrite !nth_error_map in E.
  destruct (nth_error l1 i) as [s1|], (nth_error l2 i) as [s2|];
    cbn [option_map] in E; try discriminate E.
  - apply fmt_reads_fields. congruence.
  - reflexivity.
Qed.

(** X16. The collusion prompt shows of a request only the facility of
    its first submission and the score, the checklist and the features
    of its first three submissions.  Two requests that agree on these
    get the same prompt and the same run, also through the endpoint:
    the ids, the submitter types and the discrepancy lists of the
    submissions, and the facilities of the second and the third one,
    are never looked at (so the labels household, peer and auditor go
    by position, and submissions for different facilities are not told
    apart). *)
Theorem collusion_prompt_reads_shown_fields (r1 r2 : CollusionRequest.t) :
  first_facility (CollusionRequest.submissions r1)
  = first_facility (CollusionRequest.submissions r2) ->
  map fmt_fields (firstn 3 (CollusionRequest.submissions r1))
  = map fmt_fields (firstn 3 (CollusionRequest.submissions r2)) ->
  (exists prompt,
      collusion_prompt isprintable r1 = Ok prompt
      /\ collusion_prompt isprintable r2 = Ok prompt)
  /\ (forall env,
         run_collusion_check isprintable r1 env
         = run_collusion_check isprintable r2 env)
  /\ (forall env,
         collusion_endpoint isprintable r1 env
         = collusion_endpoint isprintable r2 env).
Proof.
  intros Hfac H3.
  assert (Hs : forall i, (i < 3)%nat ->
               rendered_slot isprintable (CollusionRequest.submissions r1) i
               = rendered_slot isprintable (CollusionRequest.submissions r2) i).
  { intros i Hi.
    rewrite <- (rendered_slot_firstn isprintable _ i Hi).
    rewrite (rendered_slot_reads_fields _ _ i H3).
    apply rendered_slot_firstn, Hi. }
  assert (Hf : match CollusionRequest.submissions r1 with
               | s :: _ => SubmissionModel.facilityId s
               | [] => u "UNKNOWN"
               end
               = match CollusionRequest.submissions r2 with
                 | s :: _ => SubmissionModel.facilityId s
                 | [] => u "UNKNOWN"
                 end).
  { destruct (CollusionRequest.submissions r1) as [|a1 l1],
             (CollusionRequest.submissions r2) as [|a2 l2];
      cbn [first_facility] in Hfac; [reflexivity | discriminate Hfac
                                    | discriminate Hfac |].
    injection Hfac as Hfac. exact Hfac. }
  assert (E : collusion_prompt isprintable r1 = collusion_prompt isprintable r2).
  { rewrite !collusion_prompt_slots, Hf, !Hs by lia. reflexivity. }
  assert (G : run_collusion_check isprintable r1
              = run_collusion_check isprintable r2).
  { unfold run_collusion_check. rewrite E. reflexivity. }
  split; [|split].
  - eexists. split; [apply collusion_prompt_slots|].
    rewrite <- E. apply collusion_prompt_slots.
  - intros env. rewrite G. reflexivity.
  - intros env. unfold collusion_endpoint. rewrite G. reflexivity.
Qed.
End ShownFields.

Lemma collusion_prompt_reads_shown_fields_witness :
  run_collusion_check all_printable (sample_collusion 3)
    (sample_env (Some (u "gsk_live")) (Some (u "{}")))
  = run_collusion_check all_printable (relabelled_collusion 3)
      (sample_env (Some (u "gsk_live")) (Some (u "{}"))).
Proof.
  apply (proj1 (proj2 (collusion_prompt_reads_shown_fields all_printable
    (sample_collusion 3) (relabelled_collusion 3)
    ltac:(reflexivity) ltac:(reflexivity)))).
Defined.

(** ** The lines of a rendered submission *)

Lemma line_feeds_app (a b : pystr) :
  line_feeds (a ++ b) = (line_feeds a + line_feeds b)%nat.
Proof. apply count_occ_app. Qed.

Lemma line_feeds_none (s : pystr) :
  (forall c, In c s -> c <> 10) -> line_feeds s = 0%nat.
Proof.
  intros H. apply count_occ_not_In. intros Hin. exact (H 10 Hin eq_refl).
Qed.

Lemma utf8_decode_ascii (bs : list N) :
  Forall (fun b => b < 128) bs -> utf8_decode bs = bs.
Proof.
  induction 1 as [|b bs Hb _ IH]; [reflexivity|].
  cbn [utf8_decode]. apply N.ltb_lt in Hb. rewrite Hb, IH. reflexivity.
Qed.

Lemma uint_bytes (d : Decimal.uint) :
  Forall (fun b => 48 <= b <= 57) (bytes_of_string (NilEmpty.string_of_uint d)).
Proof.
  induction d; cbn [NilEmpty.string_of_uint bytes_of_string];
    constructor; try assumption; vm_compute; split; discriminate.
Qed.

Lemma int_bytes (d : Decimal.int) :
  Forall (fun b => 45 <= b <= 57) (bytes_of_string (NilZero.string_of_int d)).
Proof.
  assert (W : forall l, Forall (fun b => 48 <= b <= 57) l ->
                        Forall (fun b => 45 <= b <= 57) l).
  { intros l. apply Forall_impl. intros b. lia. }
  assert (U : forall d, Forall (fun b => 45 <= b <= 57)
                          (bytes_of_string (NilZero.string_of_uint d))).
  { intros [| | | | | | | | | |];
      try (apply W; apply (uint_bytes (_ _))).
    constructor; [vm_compute; split; discriminate | constructor]. }
  destruct d as [d|d]; cbn [NilZero.string_of_int bytes_of_string].
  - apply U.
  - constructor; [vm_compute; split; discriminate | apply U].
Qed.

Lemma int_str_chars (z : Z) (c : codepoint) :
  In c (int_str z) -> 45 <= c <= 57.
Proof.
  unfold int_str, u. pose proof (int_bytes (Z.to_int z)) as H.
  rewrite utf8_decode_ascii.
  - rewrite Forall_forall in H. apply H.
  - revert H. apply Forall_impl. intros b. lia.
Qed.

Lemma int_str_one_line (z : Z) : line_feeds (int_str z) = 0%nat.
Proof.
  apply line_feeds_none. intros c Hc. apply int_str_chars in Hc. lia.
Qed.

Lemma model_dump_str_one_line (cl : ChecklistModel.t) :
  line_feeds (model_dump_str cl) = 0%nat.
Proof. destruct cl as [[] [] [] []]; vm_compute; reflexivity. Qed.

Lemma hex_digits_chars (k : nat) (n : N) (c : codepoint) :
  In c (hex_digits k n) -> 48 <= c.
Proof.
  revert n. induction k as [|k IH]; intros n; [intros []|].
  cbn [hex_digits]. rewrite in_app_iff. intros [H|[H|[]]].
  - apply (IH _ H).
  - subst c. unfold hex_digit. generalize (n mod 16). intros m.
    destruct (m <? 10); lia.
Qed.

Section Lines.
Variable isprintable : codepoint -> bool.

Lemma repr_char_one_line (quote c x : codepoint) :
  quote <> 10 -> In x (repr_char isprintable quote c) -> x <> 10.
Proof.
  intros Hq. unfold repr_char.
  assert (Hx : forall p k, (forall y, In y p -> y <> 10) ->
                           In x (p ++ hex_digits k c) -> x <> 10).
  { intros p k Hp Hin. apply in_app_iff in Hin. destruct Hin as [Hin|Hin].
    - apply Hp, Hin.
    - apply hex_digits_chars in Hin. lia. }
  assert (Lx : forall y, In y (u "\x") -> y <> 10)
    by (intros y [<-|[<-|[]]]; discriminate).
  assert (Lu : forall y, In y (u "\u") -> y <> 10)
    by (intros y [<-|[<-|[]]]; discriminate).
  assert (LU : forall y, In y (u "\U") -> y <> 10)
    by (intros y [<-|[<-|[]]]; discriminate).
  destruct ((c =? quote) || (c =? 92)) eqn:E1.
  - intros [<-|[<-|[]]]; [discriminate|].
    apply orb_true_iff in E1. destruct E1 as [E|E]; apply N.eqb_eq in E; lia.
  - destruct (c =? 9); [intros [<-|[<-|[]]]; discriminate|].
    destruct (c =? 10) eqn:E10; [intros [<-|[<-|[]]]; discriminate|].
    destruct (c =? 13); [intros [<-|[<-|[]]]; discriminate|].
    apply N.eqb_neq in E10.
    destruct ((c <? 32) || (c =? 127)); [apply Hx, Lx|].
    destruct (c <? 127); [intros [<-|[]]; exact E10|].
    destruct (isprintable c); [intros [<-|[]]; exact E10|].
    destruct (c <? 256); [apply Hx, Lx|].
    destruct (c <? 65536); [apply Hx, Lu | apply Hx, LU].
Qed.

Lemma str_repr_one_line (s : pystr) : line_feeds (str_repr isprintable s) = 0%nat.
Proof.
  apply line_feeds_none. unfold str_repr.
  set (quote := if existsb (N.eqb 39) s && negb (existsb (N.eqb 34) s)
                then 34 else 39).
  assert (Hq : quote <> 10)
    by (unfold quote; destruct (existsb (N.eqb 39) s && negb (existsb (N.eqb 34) s));
        discriminate).
  intros c [<-|Hin]; [exact Hq|].
  apply in_app_iff in Hin. destruct Hin as [Hin|[<-|[]]]; [|exact Hq].
  apply in_flat_map in Hin. destruct Hin as (y & _ & Hy).
  apply (repr_char_one_line quote y c Hq Hy).
Qed.

Lemma join_comma_one_line (items : list pystr) :
  (forall x, In x items -> line_feeds x = 0%nat) ->
  line_feeds (join_comma items) = 0%nat.
Proof.
  induction items as [|x r IH]; intros H; [reflexivity|].
  destruct r as [|y r].
  - apply H. left. reflexivity.
  - change (join_comma (x :: y :: r)) with (x ++ u ", " ++ join_comma (y :: r)).
    rewrite !line_feeds_app, (H x) by (left; reflexivity).
    rewrite IH by (intros z Hz; apply H; right; exact Hz).
    reflexivity.
Qed.

(** X17. A rendered submission is always three lines: the text that
    [fmt] gives holds exactly two line feeds, the ones of its template,
    whatever the score and the feature strings are: a line feed inside
    a feature is shown escaped by [repr], so a feature cannot start a
    line of its own in the prompt. *)
Theorem rendered_submission_is_three_lines (s : SubmissionModel.t) :
  line_feeds (fmt isprintable s) = 2%nat.
Proof.
  unfold fmt, list_repr. rewrite !line_feeds_app.
  rewrite int_str_one_line, model_dump_str_one_line.
  rewrite join_comma_one_line.
  - reflexivity.
  - intros x Hx. apply in_map_iff in Hx. destruct Hx as (y & <- & _).
    apply str_repr_one_line.
Qed.
End Lines.
